(** * cloudshipai/ship: the two example programs

    - [examples/serverless-api/lambda_function.py]: a request handler
      over one table, with the operations list-all, create, fetch-by-id and
      delete-by-id (module [Lambda]);
    - [examples/opencode-test/sample.py]: the [DataProcessor] class, which
      loads a configuration, filters a batch of records and normalises the
      survivors in place (module [Sample]).

    Both are embedded as functions of Rocq: the Python values they handle
    are the type [pyval], exceptions are values of [exn], and code that
    reads or changes the outside world (the table, the clock, the
    identifier generator, the objects of the heap) threads a state and may
    raise. *)

From Stdlib Require Import ZArith String Ascii List Bool Lia.
From stdpp Require Import base option strings pretty gmap.
Import ListNotations.

Set Warnings "-register-all".
Local Open Scope string_scope.
Local Open Scope Z_scope.

(** ** Python values *)

(** A [str] is a sequence of code points; the embedding keeps the code
    points below 256 (Latin-1), one [ascii] per code point.  A [dict] keeps
    its keys in insertion order, as Python's does.  A [float] is identified
    by the text Python prints for it; no arithmetic is done on floats. *)
Inductive pyval : Type :=
| PNone
| PBool (b : bool)
| PInt (n : Z)
| PFloat (repr : string)
| PStr (s : string)
| PList (xs : list pyval)
| PDict (kvs : list (string * pyval)).

(** A dict with string keys, as an insertion-ordered list of entries. *)
Definition dict : Type := list (string * pyval).

(** [type(v).__name__] *)
Definition type_name (v : pyval) : string :=
  match v with
  | PNone => "NoneType"
  | PBool _ => "bool"
  | PInt _ => "int"
  | PFloat _ => "float"
  | PStr _ => "str"
  | PList _ => "list"
  | PDict _ => "dict"
  end.

(** [key in d] *)
Fixpoint dict_contains (key : string) (d : dict) : bool :=
  match d with
  | [] => false
  | (k, _) :: rest => if String.eqb k key then true else dict_contains key rest
  end.

(** [d.get(key)], [None] standing for an absent key *)
Fixpoint dict_lookup (key : string) (d : dict) : option pyval :=
  match d with
  | [] => None
  | (k, v) :: rest => if String.eqb k key then Some v else dict_lookup key rest
  end.

(** [d[key] = v]: the value of an existing key is replaced where it stands,
    a new key is added at the end. *)
Fixpoint dict_set (key : string) (v : pyval) (d : dict) : dict :=
  match d with
  | [] => [(key, v)]
  | (k, w) :: rest =>
      if String.eqb k key then (k, v) :: rest else (k, w) :: dict_set key v rest
  end.

(** ** Exceptions *)

(** The exception classes the two programs can meet, all of them
    subclasses of [Exception].  [OtherError] stands for any further subclass,
    by class name and message. *)
Inductive exn : Type :=
| KeyError (key : string)
| TypeError (msg : string)
| AttributeError (msg : string)
| ValueError (msg : string)
| JSONDecodeError (msg : string)
| FileNotFoundError (msg : string)
| PermissionError (msg : string)
| OtherError (cls msg : string).

(** [repr(s)] for a string without quotes or escapes in it *)
Definition repr_str (s : string) : string := "'" ++ s ++ "'".

(** [str(e)]: the message; a [KeyError] prints the [repr] of its key. *)
Definition exn_str (e : exn) : string :=
  match e with
  | KeyError key => repr_str key
  | TypeError msg | AttributeError msg | ValueError msg | JSONDecodeError msg
  | FileNotFoundError msg | PermissionError msg | OtherError _ msg => msg
  end.

(** [isinstance(e, FileNotFoundError)] *)
Definition is_FileNotFoundError (e : exn) : bool :=
  match e with FileNotFoundError _ => true | _ => false end.

(** The outcome of a call: it raised, or it returned a value. *)
Inductive outcome (A : Type) : Type :=
| Raised (e : exn)
| Returned (a : A).
Arguments Raised {A} e.
Arguments Returned {A} a.

(** ** The json module

    [json.loads] and [json.dumps] belong to Python's library, not to the
    programs; the embedding takes them as given (see the sections below). *)
Record json_module : Type := {
  (** [json.loads(text)]: the parsed value, or the exception it raised *)
  json_loads : string -> outcome pyval;
  (** [json.dumps(v)] *)
  json_dumps : pyval -> string;
  (** [json.dumps(v, default=str)] *)
  json_dumps_default_str : pyval -> string
}.

(** * The resource handler: lambda_function.py *)
Module Lambda.

(** ** The world outside the handler

    The module-level [table] is the external table, keyed by the attribute
    [id]; it is seen through its calls [scan], [get_item], [put_item] and
    [delete_item], each modelled by its effect on a finite map from key to
    item and taken to succeed and to read what was last written.
    [uuid.uuid4()] and [datetime.now()] draw from sources the handler does
    not control: the n-th call returns the n-th value of the source. *)
Record world : Type := {
  table : gmap string dict;
  uuid_src : nat -> string;
  uuid_calls : nat;
  clock_src : nat -> string;
  clock_calls : nat
}.

(** A computation reads and changes the world and returns or raises. *)
Definition M (A : Type) : Type := world -> outcome A * world.

Definition ret {A} (a : A) : M A := fun w => (Returned a, w).
Definition raise {A} (e : exn) : M A := fun w => (Raised e, w).
Definition bind {A B} (m : M A) (k : A -> M B) : M B :=
  fun w => match m w with
           | (Returned a, w') => k a w'
           | (Raised e, w') => (Raised e, w')
           end.
(** [try: body / except Exception as e: handler(e)] *)
Definition try_except {A} (body : M A) (handler : exn -> M A) : M A :=
  fun w => match body w with
           | (Returned a, w') => (Returned a, w')
           | (Raised e, w') => handler e w'
           end.
Definition lift {A} (o : outcome A) : M A := fun w => (o, w).

Notation "'let*' x := m 'in' k" := (bind m (fun x => k))
  (at level 10, x name, m at level 100, k at level 200).
Notation "'run' m 'in' k" := (bind m (fun _ => k))
  (at level 10, m at level 100, k at level 200).

(** [str(uuid.uuid4())] *)
Definition uuid4 : M string := fun w =>
  (Returned (uuid_src w (uuid_calls w)),
   {| table := table w; uuid_src := uuid_src w; uuid_calls := S (uuid_calls w);
      clock_src := clock_src w; clock_calls := clock_calls w |}).

(** [datetime.now().isoformat()] *)
Definition now_isoformat : M string := fun w =>
  (Returned (clock_src w (clock_calls w)),
   {| table := table w; uuid_src := uuid_src w; uuid_calls := uuid_calls w;
      clock_src := clock_src w; clock_calls := S (clock_calls w) |}).

Definition with_table (t : gmap string dict) (w : world) : world :=
  {| table := t; uuid_src := uuid_src w; uuid_calls := uuid_calls w;
     clock_src := clock_src w; clock_calls := clock_calls w |}.

(** [table.scan().get('Items', [])] *)
Definition table_scan : M (list dict) := fun w =>
  (Returned (map snd (map_to_list (table w))), w).

(** [table.get_item(Key={'id': item_id})]: [Some] is a response with the
    key ['Item'], [None] one without. *)
Definition table_get_item (item_id : string) : M (option dict) := fun w =>
  (Returned (table w !! item_id), w).

(** [table.put_item(Item=item)], for an item whose [id] is [item_id] *)
Definition table_put_item (item_id : string) (item : dict) : M unit := fun w =>
  (Returned tt, with_table (<[item_id := item]> (table w)) w).

(** [table.delete_item(Key={'id': item_id})] *)
Definition table_delete_item (item_id : string) : M unit := fun w =>
  (Returned tt, with_table (delete item_id (table w)) w).

(** ** Events and responses *)

(** The event the hosting runtime passes in.  For each of the four keys
    the handler reads, [None] says that the key is absent; a present value
    has the type the request gateway gives it: strings for [httpMethod] and
    [path], [null] or a mapping of strings for [pathParameters], [null] or a
    string for [body]. *)
Record event : Type := {
  httpMethod : option string;
  path : option string;
  pathParameters : option (option (list (string * string)));
  body : option (option string)
}.

(** The response envelope [{'statusCode': _, 'headers': {...}, 'body': _}]. *)
Record response : Type := {
  statusCode : Z;
  headers : list (string * string);
  resp_body : string
}.

(** The header dict every return statement of the file writes out. *)
Definition json_cors_headers : list (string * string) :=
  [("Content-Type", "application/json"); ("Access-Control-Allow-Origin", "*")].

Section Handler.
Variable json : json_module.

Definition get_all_items : M response :=
  let* items := table_scan in
  ret {| statusCode := 200;
         headers := json_cors_headers;
         resp_body := json_dumps_default_str json
           (PDict [("items", PList (map PDict items));
                   ("count", PInt (Z.of_nat (length items)))]) |}.

(** [data.get(key, default)]: [data] is whatever [json.loads] returned, and
    only a dict has the attribute [get]. *)
Definition py_get (data : pyval) (key : string) (default : pyval) : M pyval :=
  match data with
  | PDict kvs => ret (match dict_lookup key kvs with Some v => v | None => default end)
  | _ => raise (AttributeError
                  ("'" ++ type_name data ++ "' object has no attribute 'get'"))
  end.

(** [body] is the value of [event['body']]: [None] for [null]. *)
Definition create_item (body : option string) : M response :=
  match body with
  | None | Some "" =>
      ret {| statusCode := 400;
             headers := json_cors_headers;
             resp_body := json_dumps json
               (PDict [("error", PStr "Request body is required")]) |}
  | Some text =>
      let* data := lift (json_loads json text) in
      let* item_id := uuid4 in
      let* name := py_get data "name" (PStr "") in
      let* description := py_get data "description" (PStr "") in
      let* created_at := now_isoformat in
      let* updated_at := now_isoformat in
      let item := [("id", PStr item_id);
                   ("name", name);
                   ("description", description);
                   ("created_at", PStr created_at);
                   ("updated_at", PStr updated_at)] in
      run table_put_item item_id item in
      ret {| statusCode := 201;
             headers := json_cors_headers;
             resp_body := json_dumps_default_str json (PDict item) |}
  end.

Definition item_not_found : response :=
  {| statusCode := 404;
     headers := json_cors_headers;
     resp_body := json_dumps json (PDict [("error", PStr "Item not found")]) |}.

Definition get_item (item_id : string) : M response :=
  let* response := table_get_item item_id in
  match response with
  | None => ret item_not_found
  | Some item =>
      ret {| statusCode := 200;
             headers := json_cors_headers;
             resp_body := json_dumps_default_str json (PDict item) |}
  end.

Definition delete_item (item_id : string) : M response :=
  let* response := table_get_item item_id in
  match response with
  | None => ret item_not_found
  | Some _ =>
      run table_delete_item item_id in
      ret {| statusCode := 200;
             headers := json_cors_headers;
             resp_body := json_dumps json
               (PDict [("message", PStr "Item deleted successfully")]) |}
  end.

(** [event[key]] *)
Definition event_item {A} (field : option A) (key : string) : M A :=
  match field with
  | Some v => ret v
  | None => raise (KeyError key)
  end.

(** [event['pathParameters']['id']] *)
Definition path_parameter_id (ev : event) : M string :=
  let* params := event_item (pathParameters ev) "pathParameters" in
  match params with
  | None => raise (TypeError "'NoneType' object is not subscriptable")
  | Some kvs =>
      match List.find (fun kv => String.eqb (fst kv) "id") kvs with
      | Some kv => ret (snd kv)
      | None => raise (KeyError "id")
      end
  end.

Definition not_found : response :=
  {| statusCode := 404;
     headers := json_cors_headers;
     resp_body := json_dumps json (PDict [("error", PStr "Not found")]) |}.

(** [path.startswith(p)] *)
Definition startswith (p s : string) : bool := String.prefix p s.

(** The body of the [try] statement of [lambda_handler]. *)
Definition dispatch (http_method path : string) (ev : event) : M response :=
  if String.eqb http_method "GET" && String.eqb path "/items" then
    get_all_items
  else if String.eqb http_method "POST" && String.eqb path "/items" then
    let* body := event_item (body ev) "body" in
    create_item body
  else if String.eqb http_method "GET" && startswith "/items/" path then
    let* item_id := path_parameter_id ev in
    get_item item_id
  else if String.eqb http_method "DELETE" && startswith "/items/" path then
    let* item_id := path_parameter_id ev in
    delete_item item_id
  else
    ret not_found.

Definition internal_error (e : exn) : response :=
  {| statusCode := 500;
     headers := json_cors_headers;
     resp_body := json_dumps json (PDict [("error", PStr (exn_str e))]) |}.

(** [lambda_handler(event, context)]; [context] is never read. *)
Definition lambda_handler (ev : event) : M response :=
  let* http_method := event_item (httpMethod ev) "httpMethod" in
  let* path := event_item (path ev) "path" in
  try_except (dispatch http_method path ev)
             (fun e => ret (internal_error e)).

End Handler.
End Lambda.

(** * The record transformer: sample.py *)
Module Sample.

(** ** Strings of digits *)

(** The code points [0] to [9]. *)
Definition is_decimal_char (c : ascii) : bool :=
  let n := N_of_ascii c in ((48 <=? n) && (n <=? 57))%N.

(** The code points below 256 that [str.isdigit] counts as digits: the
    decimal digits and the superscripts two, three and one (U+00B2, U+00B3,
    U+00B9), whose Unicode numeric type is Digit. *)
Definition is_digit_char (c : ascii) : bool :=
  let n := N_of_ascii c in
  (is_decimal_char c || (n =? 178) || (n =? 179) || (n =? 185))%N.

Fixpoint all_chars (p : ascii -> bool) (s : string) : bool :=
  match s with
  | EmptyString => true
  | String c rest => p c && all_chars p rest
  end.

(** [s.isdigit()]: every character is a digit and there is at least one. *)
Definition isdigit (s : string) : bool :=
  match s with
  | EmptyString => false
  | _ => all_chars is_digit_char s
  end.

(** The spec's words: a string composed entirely of decimal digits. *)
Definition is_decimal_string (s : string) : bool :=
  match s with
  | EmptyString => false
  | _ => all_chars is_decimal_char s
  end.

Fixpoint decimal_value (acc : Z) (s : string) : Z :=
  match s with
  | EmptyString => acc
  | String c rest => decimal_value (10 * acc + (Z.of_N (N_of_ascii c) - 48)) rest
  end.

(** The number of decimal digits [s] begins with. *)
Fixpoint leading_digits (s : string) : nat :=
  match s with
  | EmptyString => O
  | String c rest => if is_decimal_char c then S (leading_digits rest) else O
  end.

(** The guard of [int] against long literals: a literal of more than 640
    digits is refused when the interpreter's limit
    ([sys.get_int_max_str_digits()], 4300 unless it was changed, 0 where
    there is none) is set and the literal has more digits than that. *)
Definition exceeds_max_str_digits (max_str_digits digits : nat) : bool :=
  ((640 <? digits) && (0 <? max_str_digits) && (max_str_digits <? digits))%nat.

(** [int(s)] on the strings that reach it, those that passed [isdigit]
    (no sign, blank or underscore in them), under the limit
    [max_str_digits]: the digits the string begins with are counted and
    checked against the limit; then a string of decimal digits is read in
    base 10, and a string with a superscript in it is not a base-10
    literal. *)
Definition py_int (max_str_digits : nat) (s : string) : outcome Z :=
  let digits := leading_digits s in
  if exceeds_max_str_digits max_str_digits digits then
    Raised (ValueError
              ("Exceeds the limit (" ++ pretty max_str_digits
               ++ " digits) for integer string conversion: value has "
               ++ pretty digits
               ++ " digits; use sys.set_int_max_str_digits() to increase the limit"))
  else if is_decimal_string s then Returned (decimal_value 0 s)
  else Raised (ValueError
                 ("invalid literal for int() with base 10: " ++ repr_str s)).

(** ** Objects and time *)

(** The records of a batch are dict objects: the batch is a list of
    references, and two of its entries may refer to the same object.  The
    heap gives the current content of every object.  [time.time()] draws from
    a source the program does not control.  [int_max_str_digits] is the
    interpreter's limit on the digits of an integer literal, which the
    program reads through [int] and never sets. *)
Definition loc : Type := nat.

Record state : Type := {
  heap : loc -> dict;
  time_src : nat -> Z;
  time_calls : nat;
  int_max_str_digits : nat
}.

Definition M (A : Type) : Type := state -> outcome A * state.

Definition ret {A} (a : A) : M A := fun st => (Returned a, st).
Definition bind {A B} (m : M A) (k : A -> M B) : M B :=
  fun st => match m st with
            | (Returned a, st') => k a st'
            | (Raised e, st') => (Raised e, st')
            end.
Definition lift {A} (o : outcome A) : M A := fun st => (o, st).

Notation "'let*' x := m 'in' k" := (bind m (fun x => k))
  (at level 10, x name, m at level 100, k at level 200).
Notation "'run' m 'in' k" := (bind m (fun _ => k))
  (at level 10, m at level 100, k at level 200).

(** The content of the object [item] *)
Definition load (item : loc) : M dict := fun st => (Returned (heap st item), st).

Definition heap_update (item : loc) (d : dict) (h : loc -> dict) : loc -> dict :=
  fun l => if Nat.eqb l item then d else h l.

(** [item[key] = v] *)
Definition setitem (item : loc) (key : string) (v : pyval) : M unit := fun st =>
  (Returned tt,
   {| heap := heap_update item (dict_set key v (heap st item)) (heap st);
      time_src := time_src st; time_calls := time_calls st;
      int_max_str_digits := int_max_str_digits st |}).

(** [int(time.time())], in seconds since the epoch *)
Definition int_time : M Z := fun st =>
  (Returned (time_src st (time_calls st)),
   {| heap := heap st; time_src := time_src st; time_calls := S (time_calls st);
      int_max_str_digits := int_max_str_digits st |}).

(** [int(s)] *)
Definition int_of_str (s : string) : M Z := fun st =>
  (py_int (int_max_str_digits st) s, st).

(** ** DataProcessor *)

(** [self.config], as [process_data] uses it: a mapping whose entry
    [required_fields], when there is one, is a list of field names. *)
Record config : Type := {
  required_fields : option (list string)
}.

(** What [open(path, 'r')] followed by [f.read()] gives for each path: the
    text of the file, or the exception raised on the way
    ([FileNotFoundError] when no file is there). *)
Definition file_system : Type := string -> outcome string.

Section WithJson.
Variable json : json_module.

(** [json.load(f)] for the file at [path] *)
Definition json_load (fs : file_system) (path : string) : outcome pyval :=
  match fs path with
  | Returned text => json_loads json text
  | Raised e => Raised e
  end.

(** [_load_config]: the [try] covers [open] and [json.load]; the only
    [except] clause is for [FileNotFoundError]. *)
Definition load_config (fs : file_system) (config_path : string) : outcome pyval :=
  match json_load fs config_path with
  | Returned v => Returned v
  | Raised e => if is_FileNotFoundError e then Returned (PDict []) else Raised e
  end.

End WithJson.

(** [_validate_item] *)
Definition validate_item (cfg : config) (item : loc) : M bool :=
  let required :=
    match required_fields cfg with Some fields => fields | None => [] end in
  let* d := load item in
  ret (forallb (fun field => dict_contains field d) required).

(** The loop of [_transform_item] over [item.items()]: the entries are
    visited in order, and an entry whose value is a string of digits is
    assigned the integer.  A key is assigned only when it is visited, so the
    value found in the entries as they stood when the loop began is the
    current one.  An exception leaves the assignments made so far in place. *)
Fixpoint convert_entries (item : loc) (entries : list (string * pyval)) : M unit :=
  match entries with
  | [] => ret tt
  | (key, value) :: rest =>
      run (match value with
           | PStr s =>
               if isdigit s then
                 let* n := int_of_str s in
                 setitem item key (PInt n)
               else ret tt
           | _ => ret tt
           end) in
      convert_entries item rest
  end.

(** [_transform_item]: returns the object it was given. *)
Definition transform_item (item : loc) : M loc :=
  let* d := load item in
  run (if negb (dict_contains "timestamp" d) then
         let* t := int_time in
         setitem item "timestamp" (PInt t)
       else ret tt) in
  let* entries := load item in
  run convert_entries item entries in
  ret item.

(** The [for] loop of [process_data], with the list [processed] built so far. *)
Fixpoint process_loop (cfg : config) (data : list loc) (processed : list loc)
  : M (list loc) :=
  match data with
  | [] => ret processed
  | item :: rest =>
      let* valid := validate_item cfg item in
      if valid then
        let* processed_item := transform_item item in
        process_loop cfg rest (processed ++ [processed_item])
      else process_loop cfg rest processed
  end.

(** [process_data] *)
Definition process_data (cfg : config) (data : list loc) : M (list loc) :=
  process_loop cfg data [].

End Sample.

(** * Sample inputs

    An instance of the json module and a few worlds, events and records on
    which the definitions can be run. *)
Module Samples.

Definition dquote : string := String "034"%char EmptyString.

(** [json.loads] on the two bodies the examples use: ["{}"] parses to the
    empty dict, and ["x"] is rejected with the message Python gives for it. *)
Definition sample_loads (text : string) : outcome pyval :=
  if String.eqb text "{}" then Returned (PDict [])
  else Raised (JSONDecodeError "Expecting value: line 1 column 1 (char 0)").

(** A serialiser for the values whose strings need no escape, with the
    separators [json.dumps] uses. *)
Fixpoint sample_dumps (v : pyval) : string :=
  match v with
  | PNone => "null"
  | PBool true => "true"
  | PBool false => "false"
  | PInt n => pretty n
  | PFloat repr => repr
  | PStr s => dquote ++ s ++ dquote
  | PList xs => "[" ++ String.concat ", " (map sample_dumps xs) ++ "]"
  | PDict kvs =>
      "{" ++ String.concat ", "
               (map (fun kv => match kv with
                               | (k, w) => dquote ++ k ++ dquote ++ ": " ++ sample_dumps w
                               end) kvs) ++ "}"
  end.

Definition sample_json : json_module :=
  {| json_loads := sample_loads;
     json_dumps := sample_dumps;
     json_dumps_default_str := sample_dumps |}.

(** A clock that has moved on by a microsecond at each reading. *)
Definition ticking_clock (n : nat) : string :=
  match n with
  | O => "2024-05-01T12:00:00.000001"
  | _ => "2024-05-01T12:00:00.000002"
  end.

Definition sample_uuids (n : nat) : string :=
  match n with
  | O => "6f1c2a52-0d3e-4a8b-9b57-2f3f0c1d7e01"
  | _ => "6f1c2a52-0d3e-4a8b-9b57-2f3f0c1d7e02"
  end.

Definition empty_world : Lambda.world :=
  {| Lambda.table := ∅;
     Lambda.uuid_src := sample_uuids; Lambda.uuid_calls := 0;
     Lambda.clock_src := ticking_clock; Lambda.clock_calls := 0 |}.

Definition one_item_world : Lambda.world :=
  Lambda.with_table {[ "a1" := [("id", PStr "a1"); ("name", PStr "tea")] ]} empty_world.

Definition request (method path : string) : Lambda.event :=
  {| Lambda.httpMethod := Some method; Lambda.path := Some path;
     Lambda.pathParameters := Some None; Lambda.body := Some None |}.

(** [POST /items] with the body [text] *)
Definition post_items (text : string) : Lambda.event :=
  {| Lambda.httpMethod := Some "POST"; Lambda.path := Some "/items";
     Lambda.pathParameters := Some None; Lambda.body := Some (Some text) |}.

(** An event without any of the keys the handler reads. *)
Definition empty_event : Lambda.event :=
  {| Lambda.httpMethod := None; Lambda.path := None;
     Lambda.pathParameters := None; Lambda.body := None |}.

(** [GET /items/a1] with [pathParameters] null: subscripting [None] raises
    inside the [try], and the answer is 500. *)
Definition null_parameters_response : Lambda.response :=
  {| Lambda.statusCode := 500; Lambda.headers := Lambda.json_cors_headers;
     Lambda.resp_body := sample_dumps
       (PDict [("error", PStr "'NoneType' object is not subscriptable")]) |}.

(** The superscript two, U+00B2. *)
Definition superscript_two : string := String "178"%char EmptyString.

(** What [int] raises for it. *)
Definition superscript_two_error : exn :=
  ValueError ("invalid literal for int() with base 10: " ++ repr_str superscript_two).

(** A clock for [time.time()]. *)
Definition epoch_clock (n : nat) : Z := 1714564800 + Z.of_nat n.

(** One object: a record that has its [timestamp] and whose field [rank]
    holds the superscript two. *)
Definition ranked_record : dict :=
  [("id", PInt 7); ("rank", PStr superscript_two); ("timestamp", PInt 1714560000)].

Definition ranked_state : Sample.state :=
  {| Sample.heap := fun _ => ranked_record;
     Sample.time_src := epoch_clock; Sample.time_calls := 0;
     Sample.int_max_str_digits := 4300 |}.

(** The batch of the example at the end of sample.py, as three objects. *)
Definition usage_heap (l : Sample.loc) : dict :=
  match l with
  | O => [("id", PStr "1"); ("name", PStr "Alice"); ("score", PStr "95")]
  | S O => [("id", PStr "2"); ("name", PStr "Bob"); ("score", PStr "87")]
  | _ => [("id", PStr "3"); ("name", PStr "Charlie")]
  end.

Definition usage_state : Sample.state :=
  {| Sample.heap := usage_heap;
     Sample.time_src := epoch_clock; Sample.time_calls := 0;
     Sample.int_max_str_digits := 4300 |}.

Definition require (fields : list string) : Sample.config :=
  {| Sample.required_fields := Some fields |}.

(** A directory with a well-formed [config.json], a file [broken.json]
    whose text is not JSON, a file [secret.json] that may not be read, and
    nothing else. *)
Definition sample_files : Sample.file_system := fun path =>
  if String.eqb path "config.json" then Returned "{}"
  else if String.eqb path "broken.json" then Returned "x"
  else if String.eqb path "secret.json" then
    Raised (PermissionError "[Errno 13] Permission denied: 'secret.json'")
  else Raised (FileNotFoundError
                 ("[Errno 2] No such file or directory: " ++ repr_str path)).

End Samples.

(** * Properties of the resource handler *)
Module LambdaSpec.
Import Lambda Samples.

(** An identifier as a path pattern [{id}] takes it: one segment of the
    path, not empty and without a slash. *)
Fixpoint no_slash (s : string) : bool :=
  match s with
  | EmptyString => true
  | String c rest => negb (Ascii.eqb c "/") && no_slash rest
  end.

Definition is_segment (id : string) : Prop := id <> "" /\ no_slash id = true.

(** The routing table in the spec's words: the four method and path
    patterns, [/items/{id}] being [/items/] followed by one segment. *)
Definition routed_by_pattern (method path : string) : Prop :=
  (method = "GET" /\ path = "/items")
  \/ (method = "POST" /\ path = "/items")
  \/ (method = "GET" /\ exists id : string, is_segment id /\ path = "/items/" ++ id)
  \/ (method = "DELETE"
      /\ exists id : string, is_segment id /\ path = "/items/" ++ id).

(** [DELETE /items/a1/history], with the path parameter [id] set to [a1]:
    the path matches none of the four patterns. *)
Definition delete_nested : event :=
  {| httpMethod := Some "DELETE"; path := Some "/items/a1/history";
     pathParameters := Some (Some [("id", "a1")]); body := Some None |}.

(** The routes as the handler tests them: the two item routes take every
    path that starts with [/items/], whatever follows. *)
Definition routed (method path : string) : Prop :=
  (method = "GET" /\ path = "/items")
  \/ (method = "POST" /\ path = "/items")
  \/ (method = "GET" /\ exists id : string, path = "/items/" ++ id)
  \/ (method = "DELETE" /\ exists id : string, path = "/items/" ++ id).

Lemma startswith_app (p s : string) :
  startswith p s = true <-> exists rest : string, s = p ++ rest.
Proof.
  unfold startswith. revert s.
  induction p as [|c p IH]; intros s; simpl.
  - split; [intros _; exists s; reflexivity | by destruct s].
  - destruct s as [|d s]; simpl.
    + split; [discriminate | intros [rest Hrest]; discriminate].
    + destruct (Ascii.ascii_dec c d) as [->|Hne].
      * rewrite IH.
        split; intros [rest Hrest]; exists rest;
          change (String d p ++ rest) with (String d (p ++ rest)) in *; congruence.
      * split; [discriminate | intros [rest Hrest]].
        change (String c p ++ rest) with (String c (p ++ rest)) in Hrest.
        congruence.
Qed.

Section Facts.
Variable json : json_module.

Lemma lambda_handler_dispatch (ev : event) (method p : string) (w : world) :
  httpMethod ev = Some method -> path ev = Some p ->
  lambda_handler json ev w =
  try_except (dispatch json method p ev)
             (fun e => ret (internal_error json e)) w.
Proof.
  intros Hm Hp. unfold lambda_handler, bind, event_item.
  rewrite Hm, Hp. reflexivity.
Qed.

(** What [create_item] does with a body that parses to a dict: the item it
    builds takes [created_at] from one reading of the clock and
    [updated_at] from the next. *)
Lemma create_item_stamps (text : string) (kvs : dict) (w : world) :
  text <> "" -> json_loads json text = Returned (PDict kvs) ->
  let item_id := uuid_src w (uuid_calls w) in
  let item := [("id", PStr item_id);
               ("name", default (PStr "") (dict_lookup "name" kvs));
               ("description", default (PStr "") (dict_lookup "description" kvs));
               ("created_at", PStr (clock_src w (clock_calls w)));
               ("updated_at", PStr (clock_src w (S (clock_calls w))))] in
  exists w', create_item json (Some text) w =
    (Returned {| statusCode := 201; headers := json_cors_headers;
                 resp_body := json_dumps_default_str json (PDict item) |}, w')
    /\ table w' = <[item_id := item]> (table w).
Proof.
  intros Hne Hparse. destruct text as [|c text]; [congruence|].
  unfold create_item, bind, lift. rewrite Hparse. simpl.
  destruct (dict_lookup "name" kvs), (dict_lookup "description" kvs);
    simpl; eexists; split; reflexivity.
Qed.

(** C5: delete-by-id answers 404 with the error [Item not found] when the
    id is absent from the table; on an id that is present it removes the item
    and answers 200 with a confirmation message, and fetch-by-id of the same
    id in the resulting world answers 404. *)
Theorem delete_item_then_get_item (item_id : string) (w : world) :
  match table w !! item_id with
  | None =>
      delete_item json item_id w =
      (Returned {| statusCode := 404; headers := json_cors_headers;
                   resp_body := json_dumps json
                     (PDict [("error", PStr "Item not found")]) |}, w)
  | Some _ =>
      let w' := with_table (delete item_id (table w)) w in
      delete_item json item_id w =
      (Returned {| statusCode := 200; headers := json_cors_headers;
                   resp_body := json_dumps json
                     (PDict [("message", PStr "Item deleted successfully")]) |}, w')
      /\ get_item json item_id w' =
         (Returned {| statusCode := 404; headers := json_cors_headers;
                      resp_body := json_dumps json
                        (PDict [("error", PStr "Item not found")]) |}, w')
  end.
Proof.
  unfold delete_item, get_item, bind, table_get_item.
  destruct (table w !! item_id) as [item|] eqn:Hlook; simpl.
  - split; [reflexivity|]. by rewrite lookup_delete_eq.
  - reflexivity.
Qed.

(** C6, amended: an event whose method and path match none of the four
    routes, the two item routes taken as the handler tests them, by the
    prefix [/items/], is answered 404 with the error [Not found], and the
    world is left as it was. *)
Theorem unrouted_is_not_found (ev : event) (method p : string) (w : world) :
  httpMethod ev = Some method -> path ev = Some p -> ~ routed method p ->
  lambda_handler json ev w =
  (Returned {| statusCode := 404; headers := json_cors_headers;
               resp_body := json_dumps json (PDict [("error", PStr "Not found")]) |},
   w).
Proof.
  intros Hm Hp Hnot.
  rewrite (lambda_handler_dispatch ev method p w Hm Hp).
  unfold try_except, dispatch.
  destruct (String.eqb method "GET") eqn:Hget;
    destruct (String.eqb method "POST") eqn:Hpost;
    destruct (String.eqb method "DELETE") eqn:Hdel;
    destruct (String.eqb p "/items") eqn:Hitems;
    destruct (startswith "/items/" p) eqn:Hpre; simpl; try reflexivity;
    exfalso; apply Hnot; unfold routed;
    repeat match goal with
      | H : String.eqb _ _ = true |- _ => apply String.eqb_eq in H
      | H : startswith _ _ = true |- _ => apply startswith_app in H
      end; tauto.
Qed.

(** ** The headers of every response *)

Lemma bind_returned {A B} (m : M A) (k : A -> M B) (w w' : world) (b : B) :
  bind m k w = (Returned b, w') ->
  exists a w1, m w = (Returned a, w1) /\ k a w1 = (Returned b, w').
Proof.
  unfold bind. destruct (m w) as [[e|a] w1]; [discriminate|].
  intros H. exists a, w1. split; [reflexivity | exact H].
Qed.

Lemma ret_returned {A} (a b : A) (w w' : world) :
  ret a w = (Returned b, w') -> a = b /\ w = w'.
Proof. unfold ret. intros H. by inversion H. Qed.

Ltac returned :=
  repeat match goal with
    | H : bind _ _ _ = (Returned _, _) |- _ =>
        apply bind_returned in H; destruct H as (? & ? & ? & H)
    | H : ret _ _ = (Returned _, _) |- _ =>
        apply ret_returned in H; destruct H as [<- <-]
    | H : raise _ _ = (Returned _, _) |- _ => discriminate H
    end.

Lemma get_all_items_headers (w w' : world) (r : response) :
  get_all_items json w = (Returned r, w') -> headers r = json_cors_headers.
Proof. unfold get_all_items. intros H. returned. reflexivity. Qed.

Lemma create_item_headers (b : option string) (w w' : world) (r : response) :
  create_item json b w = (Returned r, w') -> headers r = json_cors_headers.
Proof.
  unfold create_item. intros H.
  destruct b as [[|c text]|]; returned; reflexivity.
Qed.

Lemma get_item_headers (item_id : string) (w w' : world) (r : response) :
  get_item json item_id w = (Returned r, w') -> headers r = json_cors_headers.
Proof.
  unfold get_item. intros H. returned.
  match goal with H : match ?o with _ => _ end _ = _ |- _ => destruct o end;
    returned; reflexivity.
Qed.

Lemma delete_item_headers (item_id : string) (w w' : world) (r : response) :
  delete_item json item_id w = (Returned r, w') -> headers r = json_cors_headers.
Proof.
  unfold delete_item. intros H. returned.
  match goal with H : match ?o with _ => _ end _ = _ |- _ => destruct o end;
    returned; reflexivity.
Qed.

Lemma dispatch_headers (method p : string) (ev : event) (w w' : world)
  (r : response) :
  dispatch json method p ev w = (Returned r, w') -> headers r = json_cors_headers.
Proof.
  unfold dispatch. intros H.
  repeat match type of H with
    | (if ?c then _ else _) _ = _ => destruct c
    end; returned;
    eauto using get_all_items_headers, create_item_headers, get_item_headers,
      delete_item_headers.
Qed.

(** C7: whatever the event and whatever the outcome, an envelope the
    handler returns carries the two headers [Content-Type: application/json]
    and [Access-Control-Allow-Origin: *]; its shape, status code, headers and
    body, is that of the type [response]. *)
Theorem response_headers (ev : event) (w w' : world) (r : response) :
  lambda_handler json ev w = (Returned r, w') ->
  headers r = [("Content-Type", "application/json");
               ("Access-Control-Allow-Origin", "*")].
Proof.
  unfold lambda_handler. intros H. returned.
  unfold try_except in H.
  match type of H with
  | match ?d with _ => _ end = _ => destruct d as [[e|r0] w0] eqn:Hd
  end.
  - returned. reflexivity.
  - inversion H; subst. eapply dispatch_headers, Hd.
Qed.

(** ** The catch-all and what lies outside it *)

(** C8, amended: once [httpMethod] and [path] have been read from the
    event, every exception the dispatch raises is caught and turned into a
    500 response whose body carries [str(e)], and the handler returns an
    envelope: no exception escapes for such an event. *)
Theorem dispatch_exceptions_become_500 (ev : event) (method p : string)
  (w : world) :
  httpMethod ev = Some method -> path ev = Some p ->
  (forall e w', dispatch json method p ev w = (Raised e, w') ->
     lambda_handler json ev w =
     (Returned {| statusCode := 500; headers := json_cors_headers;
                  resp_body := json_dumps json
                    (PDict [("error", PStr (exn_str e))]) |}, w'))
  /\ (exists r w', lambda_handler json ev w = (Returned r, w')).
Proof.
  intros Hm Hp. rewrite (lambda_handler_dispatch ev method p w Hm Hp).
  unfold try_except.
  destruct (dispatch json method p ev w) as [[e|r] w1]; split.
  - intros e' w' [= <- <-]. reflexivity.
  - eexists _, _. reflexivity.
  - intros e' w' [=].
  - eexists _, _. reflexivity.
Qed.

(** C9: an event without the key [httpMethod] or without the key [path]
    makes the handler raise [KeyError] for the first of the two that is
    missing; no envelope is returned and the world is untouched. *)
Theorem missing_method_or_path_raises (ev : event) (w : world) :
  httpMethod ev = None \/ path ev = None ->
  exists key, (key = "httpMethod" \/ key = "path")
    /\ lambda_handler json ev w = (Raised (KeyError key), w).
Proof.
  intros Hmissing. unfold lambda_handler, bind, event_item.
  destruct (httpMethod ev) as [method|].
  - destruct Hmissing as [Hm|Hp]; [discriminate|]. rewrite Hp.
    exists "path". split; [by right | reflexivity].
  - exists "httpMethod". split; [by left | reflexivity].
Qed.


End Facts.

(** ** The handler on the sample inputs *)

(** C1 at a create request served while the clock moves on: [POST /items]
    with the body [{}] is answered 201, and the item put in the table and
    returned has [created_at] from the first reading of the clock and
    [updated_at] from the second, a microsecond later; the two stamps
    differ. *)
Theorem create_item_reads_clock_twice :
  exists (item : dict) (w' : world),
    lambda_handler sample_json (post_items "{}") empty_world =
      (Returned {| statusCode := 201; headers := json_cors_headers;
                   resp_body := sample_dumps (PDict item) |}, w')
    /\ table w' !! sample_uuids 0 = Some item
    /\ dict_lookup "created_at" item = Some (PStr "2024-05-01T12:00:00.000001")
    /\ dict_lookup "updated_at" item = Some (PStr "2024-05-01T12:00:00.000002")
    /\ dict_lookup "created_at" item <> dict_lookup "updated_at" item.
Proof.
  eexists _, _. split; [reflexivity|].
  split; [apply lookup_insert_eq|].
  split; [reflexivity|]. split; [reflexivity|]. discriminate.
Qed.

(** Every event the patterns route is routed by the handler's tests. *)
Lemma routed_by_pattern_routed (method p : string) :
  routed_by_pattern method p -> routed method p.
Proof.
  unfold routed_by_pattern, routed.
  intros [H|[H|[[Hm (id & _ & Hid)]|[Hm (id & _ & Hid)]]]];
    [tauto | tauto | right; right; left | right; right; right];
    (split; [exact Hm | by exists id]).
Qed.

(** C6 as stated, at [DELETE /items/a1/history] with the path parameter
    [id] set to [a1]: the path matches none of the four patterns, yet it
    starts with [/items/], so the handler deletes the item [a1] and answers
    200 instead of 404. *)
Lemma unmatched_path_is_served :
  ~ routed_by_pattern "DELETE" "/items/a1/history"
  /\ exists r w',
       lambda_handler sample_json delete_nested one_item_world = (Returned r, w')
       /\ statusCode r = 200
       /\ resp_body r =
          sample_dumps (PDict [("message", PStr "Item deleted successfully")])
       /\ table w' !! "a1" = None.
Proof.
  split.
  - intros [[H _]|[[H _]|[[H _]|[_ (id & [_ Hid] & Hp)]]]]; try discriminate H.
    vm_compute in Hp. by simplify_eq.
  - eexists _, _. split; [reflexivity|]. split; [reflexivity|].
    split; [reflexivity|]. apply lookup_delete_eq.
Qed.

Lemma put_items_not_routed : ~ routed "PUT" "/items".
Proof.
  unfold routed. intros [[H _]|[[H _]|[[H _]|[H _]]]]; discriminate H.
Qed.

Lemma unrouted_is_not_found_witness :
  ~ routed "PUT" "/items"
  /\ lambda_handler sample_json (request "PUT" "/items") empty_world =
     (Returned {| statusCode := 404; headers := json_cors_headers;
                  resp_body := sample_dumps (PDict [("error", PStr "Not found")]) |},
      empty_world).
Proof.
  split; [exact put_items_not_routed|].
  apply (unrouted_is_not_found sample_json (request "PUT" "/items")
           "PUT" "/items" empty_world);
    [reflexivity | reflexivity | exact put_items_not_routed].
Defined.

Lemma response_headers_witness :
  lambda_handler sample_json (request "GET" "/items/a1") one_item_world =
    (Returned null_parameters_response, one_item_world)
  /\ headers null_parameters_response =
     [("Content-Type", "application/json"); ("Access-Control-Allow-Origin", "*")].
Proof.
  split; [reflexivity|].
  apply (response_headers sample_json (request "GET" "/items/a1")
           one_item_world one_item_world null_parameters_response).
  reflexivity.
Defined.

(** C8 as stated, at the event [{}]: reading [event['httpMethod']] raises
    before the [try] is entered, so the [KeyError] leaves the handler and no
    envelope is returned. *)
Lemma exception_escapes_the_handler :
  lambda_handler sample_json empty_event empty_world =
    (Raised (KeyError "httpMethod"), empty_world)
  /\ ~ (exists r w', lambda_handler sample_json empty_event empty_world =
                     (Returned r, w')).
Proof.
  split; [reflexivity|]. intros (r & w' & H). discriminate H.
Qed.

Lemma dispatch_exceptions_become_500_witness :
  dispatch sample_json "GET" "/items/a1" (request "GET" "/items/a1") one_item_world =
    (Raised (TypeError "'NoneType' object is not subscriptable"), one_item_world)
  /\ lambda_handler sample_json (request "GET" "/items/a1") one_item_world =
     (Returned null_parameters_response, one_item_world).
Proof.
  split; [reflexivity|].
  apply (proj1 (dispatch_exceptions_become_500 sample_json
                  (request "GET" "/items/a1") "GET" "/items/a1" one_item_world
                  eq_refl eq_refl)
           (TypeError "'NoneType' object is not subscriptable") one_item_world).
  reflexivity.
Defined.

Lemma missing_method_or_path_raises_witness :
  exists key, (key = "httpMethod" \/ key = "path")
    /\ lambda_handler sample_json empty_event one_item_world =
       (Raised (KeyError key), one_item_world).
Proof.
  apply (missing_method_or_path_raises sample_json empty_event one_item_world).
  left. reflexivity.
Defined.


Lemma delete_item_then_get_item_witness :
  exists w',
    delete_item sample_json "a1" one_item_world =
      (Returned {| statusCode := 200; headers := json_cors_headers;
                   resp_body := sample_dumps
                     (PDict [("message", PStr "Item deleted successfully")]) |}, w')
    /\ get_item sample_json "a1" w' =
       (Returned {| statusCode := 404; headers := json_cors_headers;
                    resp_body := sample_dumps
                      (PDict [("error", PStr "Item not found")]) |}, w').
Proof.
  pose proof (delete_item_then_get_item sample_json "a1" one_item_world) as H.
  change (table one_item_world !! "a1") with
    (({[ "a1" := [("id", PStr "a1"); ("name", PStr "tea")] ]} : gmap string dict)
       !! "a1") in H.
  rewrite lookup_singleton_eq in H. destruct H as [Hdel Hget].
  eexists. split; [exact Hdel | exact Hget].
Defined.

End LambdaSpec.

(** * Properties of the record transformer *)
Module SampleSpec.
Import Sample Samples.
Local Open Scope list_scope.

(** ** Records, valid and transformed *)

(** The spec's words: every configured required field name is present as
    a key. *)
Definition has_required_fields (cfg : config) (d : dict) : Prop :=
  forall field, In field (default [] (required_fields cfg)) ->
  exists v, In (field, v) d.

(** The test [_validate_item] computes. *)
Definition is_valid (cfg : config) (d : dict) : bool :=
  forallb (fun field => dict_contains field d) (default [] (required_fields cfg)).

(** What a successful [_transform_item] makes of one value, *)
Definition convert_value (v : pyval) : pyval :=
  match v with
  | PStr s => if isdigit s then PInt (decimal_value 0 s) else v
  | _ => v
  end.

(** and of a record, when the clock reads [t]. *)
Definition transformed (t : Z) (d : dict) : dict :=
  map (fun kv => (fst kv, convert_value (snd kv)))
      (if dict_contains "timestamp" d then d else d ++ [("timestamp", PInt t)]).

(** The spec's words for the strings [int] converts, under the limit
    [max_str_digits]: made of decimal digits, and not too many of them. *)
Definition int_accepts (max_str_digits : nat) (s : string) : bool :=
  is_decimal_string s
  && negb (exceeds_max_str_digits max_str_digits (String.length s)).

(** Every value of the record that [isdigit] accepts is one that [int]
    converts. *)
Definition digits_are_decimal (max_str_digits : nat) (d : dict) : Prop :=
  forall key s, In (key, PStr s) d -> isdigit s = true ->
                int_accepts max_str_digits s = true.

(** A dict has each key once. *)
Definition unique_keys (d : dict) : Prop := NoDup (map fst d).

(** The state after a run: the object [item] now holds [d], every other
    object and the clock's source are as in [st], and the clock was read
    [reads] more times. *)
Definition updates (st st' : state) (item : loc) (d : dict) (reads : nat) : Prop :=
  heap st' item = d
  /\ (forall l, l <> item -> heap st' l = heap st l)
  /\ time_src st' = time_src st
  /\ time_calls st' = (time_calls st + reads)%nat
  /\ int_max_str_digits st' = int_max_str_digits st.

(** A record of the batch is ready when, if it is valid, it has each key
    once and every value of it that [isdigit] accepts is a string of decimal
    digits within the interpreter's limit. *)
Definition ready (cfg : config) (st : state) (item : loc) : Prop :=
  is_valid cfg (heap st item) = true ->
  unique_keys (heap st item)
  /\ digits_are_decimal (int_max_str_digits st) (heap st item).


(** ** Loading the configuration *)

(** C4: [load_config] returns an empty mapping when the file is not
    there, and lets every other failure through, be it raised while opening
    or reading the file or by the JSON parser. *)
Theorem load_config_missing_or_failing (json : json_module) (fs : file_system)
  (config_path : string) :
  (forall msg, fs config_path = Raised (FileNotFoundError msg) ->
     load_config json fs config_path = Returned (PDict []))
  /\ (forall e, is_FileNotFoundError e = false ->
        fs config_path = Raised e ->
        load_config json fs config_path = Raised e)
  /\ (forall text e, is_FileNotFoundError e = false ->
        fs config_path = Returned text -> json_loads json text = Raised e ->
        load_config json fs config_path = Raised e).
Proof.
  unfold load_config, json_load. repeat split.
  - intros msg ->. reflexivity.
  - intros e He ->. by rewrite He.
  - intros text e He -> ->. by rewrite He.
Qed.

Lemma load_config_missing_or_failing_witness :
  load_config sample_json sample_files "absent.json" = Returned (PDict [])
  /\ load_config sample_json sample_files "secret.json" =
     Raised (PermissionError "[Errno 13] Permission denied: 'secret.json'")
  /\ load_config sample_json sample_files "broken.json" =
     Raised (JSONDecodeError "Expecting value: line 1 column 1 (char 0)").
Proof.
  split; [|split].
  - apply (proj1 (load_config_missing_or_failing sample_json sample_files
                    "absent.json")
             ("[Errno 2] No such file or directory: " ++ repr_str "absent.json")%string).
    reflexivity.
  - apply (proj1 (proj2 (load_config_missing_or_failing sample_json sample_files
                           "secret.json"))); reflexivity.
  - apply (proj2 (proj2 (load_config_missing_or_failing sample_json sample_files
                           "broken.json")) "x"); reflexivity.
Defined.

(** ** Transforming one record *)

(** A loop over entries none of which holds a string of digits changes
    nothing. *)
Lemma convert_entries_no_digits (item : loc) (entries : list (string * pyval))
  (st : state) :
  (forall key s, In (key, PStr s) entries -> isdigit s = false) ->
  convert_entries item entries st = (Returned tt, st).
Proof.
  induction entries as [|[key value] rest IH]; intros Hno; simpl.
  - reflexivity.
  - unfold bind.
    assert (Hstep : (match value with
                     | PStr s =>
                         if isdigit s then
                           let* n := int_of_str s in setitem item key (PInt n)
                         else ret tt
                     | _ => ret tt
                     end) st = (Returned tt, st)).
    { destruct value; try reflexivity.
      rewrite (Hno key s); [reflexivity | by left]. }
    unfold bind in Hstep. rewrite Hstep.
    apply IH. intros k s Hin. apply (Hno k s). by right.
Qed.

(** On a record that has its [timestamp] and no value of which passes
    [isdigit], [transform_item] returns the record as it is. *)
Lemma transform_item_unchanged (item : loc) (st : state) :
  dict_contains "timestamp" (heap st item) = true ->
  (forall key s, In (key, PStr s) (heap st item) -> isdigit s = false) ->
  transform_item item st = (Returned item, st).
Proof.
  intros Hts Hno. unfold transform_item, bind, load. rewrite Hts. simpl.
  rewrite (convert_entries_no_digits item (heap st item) st Hno). reflexivity.
Qed.

(** C3 at a record that has its [timestamp] and no value made of decimal
    digits, but one value made of a superscript digit: [isdigit] accepts the
    value, [int] rejects it, and [transform_item] raises [ValueError] where
    the claim has it return the record. *)
Theorem transform_item_raises_on_superscript :
  dict_contains "timestamp" ranked_record = true
  /\ (forall key s, In (key, PStr s) ranked_record -> is_decimal_string s = false)
  /\ isdigit superscript_two = true
  /\ transform_item 0%nat ranked_state =
     (Raised superscript_two_error, ranked_state).
Proof.
  split; [reflexivity|]. split; [|split; reflexivity].
  intros key s [H|[H|[H|[]]]]; inversion H; reflexivity.
Qed.

(** C2 at a batch of one record that has every required field: the record
    is valid, its transformation raises [ValueError], and [process_data]
    raises with it where the claim has it return the record. *)
Theorem process_data_raises_on_superscript :
  forallb (fun field => dict_contains field ranked_record) ["id"; "rank"] = true
  /\ process_data (require ["id"; "rank"]) [0%nat] ranked_state =
     (Raised superscript_two_error, ranked_state).
Proof. split; reflexivity. Qed.

(** ** The batch, when every conversion succeeds *)

Lemma dict_contains_In (key : string) (d : dict) :
  dict_contains key d = true <-> In key (map fst d).
Proof.
  induction d as [|[k v] rest IH]; simpl.
  - split; [discriminate | tauto].
  - destruct (String.eqb k key) eqn:Hk.
    + apply String.eqb_eq in Hk. tauto.
    + apply String.eqb_neq in Hk. rewrite IH. tauto.
Qed.

Lemma is_valid_spec (cfg : config) (d : dict) :
  is_valid cfg d = true <-> has_required_fields cfg d.
Proof.
  unfold is_valid, has_required_fields. rewrite forallb_forall.
  split; intros H field Hin; specialize (H field Hin).
  - apply dict_contains_In, in_map_iff in H. destruct H as ([k v] & <- & Hkv).
    by exists v.
  - destruct H as [v Hv]. apply dict_contains_In, in_map_iff.
    by exists (field, v).
Qed.

Lemma validate_item_run (cfg : config) (item : loc) (st : state) :
  validate_item cfg item st = (Returned (is_valid cfg (heap st item)), st).
Proof.
  unfold validate_item, bind, load, ret, is_valid.
  destruct (required_fields cfg); reflexivity.
Qed.

Lemma dict_set_absent (key : string) (v : pyval) (d : dict) :
  dict_contains key d = false -> dict_set key v d = d ++ [(key, v)].
Proof.
  induction d as [|[k w] rest IH]; simpl; [reflexivity|].
  destruct (String.eqb k key); [discriminate|].
  intros H. by rewrite IH.
Qed.

Lemma dict_set_present (key : string) (v w : pyval) (before after : dict) :
  ~ In key (map fst before) ->
  dict_set key v (before ++ (key, w) :: after) = before ++ (key, v) :: after.
Proof.
  induction before as [|[k u] rest IH]; simpl; intros Hnot.
  - by rewrite String.eqb_refl.
  - destruct (String.eqb k key) eqn:Hk.
    + apply String.eqb_eq in Hk. tauto.
    + rewrite IH; [reflexivity | tauto].
Qed.

Lemma heap_update_same (item : loc) (d : dict) (h : loc -> dict) :
  heap_update item d h item = d.
Proof. unfold heap_update. by rewrite Nat.eqb_refl. Qed.

Lemma heap_update_other (item l : loc) (d : dict) (h : loc -> dict) :
  l <> item -> heap_update item d h l = h l.
Proof.
  unfold heap_update. intros Hne.
  destruct (Nat.eqb l item) eqn:Heq; [|reflexivity].
  apply Nat.eqb_eq in Heq. contradiction.
Qed.

Lemma leading_digits_decimal (s : string) :
  all_chars is_decimal_char s = true -> leading_digits s = String.length s.
Proof.
  induction s as [|c s IH]; simpl; [reflexivity|].
  destruct (is_decimal_char c); simpl; [|discriminate].
  intros H. by rewrite IH.
Qed.

Lemma is_decimal_string_all (s : string) :
  is_decimal_string s = true -> all_chars is_decimal_char s = true.
Proof. by destruct s. Qed.

(** [int] returns exactly on the strings of decimal digits within the
    limit, and then returns their value. *)
Lemma py_int_returns (max_str_digits : nat) (s : string) (n : Z) :
  py_int max_str_digits s = Returned n <->
  int_accepts max_str_digits s = true /\ n = decimal_value 0 s.
Proof.
  unfold py_int, int_accepts.
  destruct (is_decimal_string s) eqn:Hdec.
  - rewrite (leading_digits_decimal s (is_decimal_string_all s Hdec)).
    destruct (exceeds_max_str_digits max_str_digits (String.length s)); simpl.
    + split; [discriminate | intros [[=] _]].
    + split; [intros [= <-]; by split | intros [_ ->]; reflexivity].
  - destruct (exceeds_max_str_digits max_str_digits (leading_digits s)); simpl;
      (split; [discriminate | intros [[=] _]]).
Qed.

Lemma py_int_accepts (max_str_digits : nat) (s : string) :
  int_accepts max_str_digits s = true ->
  py_int max_str_digits s = Returned (decimal_value 0 s).
Proof. intros H. by apply py_int_returns. Qed.

Lemma py_int_raises (max_str_digits : nat) (s : string) :
  int_accepts max_str_digits s = false ->
  exists msg, py_int max_str_digits s = Raised (ValueError msg).
Proof.
  intros Hrej. unfold py_int.
  destruct (exceeds_max_str_digits max_str_digits (leading_digits s)) eqn:Hlim;
    [by eexists|].
  destruct (is_decimal_string s) eqn:Hdec; [|by eexists].
  exfalso. unfold int_accepts in Hrej. rewrite Hdec in Hrej.
  rewrite (leading_digits_decimal s (is_decimal_string_all s Hdec)) in Hlim.
  by rewrite Hlim in Hrej.
Qed.

Lemma convert_entries_run (item : loc) (entries before : dict) (st : state) :
  heap st item = before ++ entries ->
  unique_keys (before ++ entries) ->
  digits_are_decimal (int_max_str_digits st) entries ->
  exists st', convert_entries item entries st = (Returned tt, st')
    /\ updates st st' item
         (before ++ map (fun kv => (fst kv, convert_value (snd kv))) entries) 0.
Proof.
  revert before st.
  induction entries as [|[key value] rest IH]; intros before st Hheap Huniq Hdec.
  - exists st. simpl. split; [reflexivity|].
    unfold updates. rewrite Nat.add_0_r. by rewrite Hheap.
  - assert (Hnot : ~ In key (map fst before)).
    { unfold unique_keys in Huniq. rewrite map_app in Huniq.
      apply NoDup_app in Huniq as (_ & Hdisj & _).
      intros Hin. apply (Hdisj key); [by apply list_elem_of_In|].
      apply list_elem_of_In. simpl. by left. }
    assert (Hstep : exists st1,
      (match value with
       | PStr s =>
           if isdigit s then
             let* n := int_of_str s in setitem item key (PInt n)
           else ret tt
       | _ => ret tt
       end) st = (Returned tt, st1)
      /\ updates st st1 item (before ++ (key, convert_value value) :: rest) 0).
    { assert (Hsame : updates st st item (before ++ (key, value) :: rest) 0).
      { unfold updates. rewrite Nat.add_0_r. auto. }
      destruct value as [| | | |s| |];
        try (exists st; split; [reflexivity | exact Hsame]).
      simpl. destruct (isdigit s) eqn:Hdigit.
      - unfold bind, int_of_str.
        rewrite (py_int_accepts (int_max_str_digits st) s);
          [|apply (Hdec key s); [by left | exact Hdigit]].
        eexists. split; [reflexivity|].
        unfold updates. simpl. rewrite heap_update_same, Hheap.
        rewrite dict_set_present by exact Hnot.
        repeat split; [|lia]. intros l Hl. by apply heap_update_other.
      - exists st. split; [reflexivity | exact Hsame]. }
    destruct Hstep as (st1 & Hrun & Hheap1 & Hother1 & Hsrc1 & Hcalls1 & Hmax1).
    destruct (IH (before ++ [(key, convert_value value)]) st1)
      as (st' & Hrest & Hheap' & Hother' & Hsrc' & Hcalls' & Hmax').
    + by rewrite <- app_assoc.
    + rewrite <- app_assoc. simpl. unfold unique_keys in *.
      rewrite map_app in *. exact Huniq.
    + rewrite Hmax1. intros k s Hin. apply (Hdec k s). by right.
    + exists st'. split.
      * simpl. unfold bind in *. rewrite Hrun. exact Hrest.
      * unfold updates. rewrite <- app_assoc in Hheap'.
        split; [exact Hheap'|]. split; [|split; [|split]].
        -- intros l Hl. rewrite Hother' by exact Hl. by apply Hother1.
        -- congruence.
        -- lia.
        -- congruence.
Qed.

Lemma transformed_keys (t : Z) (d : dict) :
  map fst (transformed t d) =
  map fst (if dict_contains "timestamp" d then d else d ++ [("timestamp", PInt t)]).
Proof. unfold transformed. rewrite map_map. reflexivity. Qed.

Lemma unique_keys_snoc (d : dict) (key : string) (v : pyval) :
  unique_keys d -> dict_contains key d = false -> unique_keys (d ++ [(key, v)]).
Proof.
  unfold unique_keys. intros Huniq Habsent.
  rewrite map_app. simpl. apply NoDup_app. split; [exact Huniq|]. split.
  - intros k Hk Hk'. apply list_elem_of_In in Hk, Hk'.
    destruct Hk' as [<-|[]]. apply dict_contains_In in Hk. congruence.
  - apply NoDup_singleton.
Qed.

Lemma transformed_unique_keys (t : Z) (d : dict) :
  unique_keys d -> unique_keys (transformed t d).
Proof.
  intros Huniq. unfold unique_keys. rewrite transformed_keys.
  destruct (dict_contains "timestamp" d) eqn:Hts; [exact Huniq|].
  by apply unique_keys_snoc.
Qed.

Lemma transformed_contains (t : Z) (d : dict) (key : string) :
  dict_contains key d = true -> dict_contains key (transformed t d) = true.
Proof.
  rewrite !dict_contains_In, transformed_keys.
  destruct (dict_contains "timestamp" d); [tauto|].
  rewrite map_app, in_app_iff. tauto.
Qed.

Lemma transformed_has_timestamp (t : Z) (d : dict) :
  dict_contains "timestamp" (transformed t d) = true.
Proof.
  rewrite dict_contains_In, transformed_keys.
  destruct (dict_contains "timestamp" d) eqn:Hts.
  - by apply dict_contains_In.
  - rewrite map_app, in_app_iff. right. by left.
Qed.

Lemma transformed_is_valid (cfg : config) (t : Z) (d : dict) :
  is_valid cfg d = true -> is_valid cfg (transformed t d) = true.
Proof.
  unfold is_valid. rewrite !forallb_forall. intros H field Hin.
  apply transformed_contains, H, Hin.
Qed.

Lemma convert_value_no_digits (v : pyval) (s : string) :
  convert_value v = PStr s -> isdigit s = false.
Proof.
  destruct v as [| | | |s'| |]; simpl; try discriminate.
  destruct (isdigit s') eqn:Hs'; [discriminate|]. congruence.
Qed.

Lemma convert_value_idempotent (v : pyval) :
  convert_value (convert_value v) = convert_value v.
Proof.
  destruct v as [| | | |s| |]; simpl; try reflexivity.
  destruct (isdigit s) eqn:Hs; simpl; [reflexivity | by rewrite Hs].
Qed.

Lemma transformed_digits_are_decimal (max_str_digits : nat) (t : Z) (d : dict) :
  digits_are_decimal max_str_digits (transformed t d).
Proof.
  unfold digits_are_decimal, transformed. intros key s Hin Hdigit.
  apply in_map_iff in Hin as ([k v] & [= _ Hv] & _).
  apply convert_value_no_digits in Hv. congruence.
Qed.

Lemma transformed_idempotent (t t' : Z) (d : dict) :
  transformed t' (transformed t d) = transformed t d.
Proof.
  unfold transformed at 1. rewrite transformed_has_timestamp.
  unfold transformed. rewrite map_map. apply map_ext.
  intros [k v]. simpl. by rewrite convert_value_idempotent.
Qed.

Lemma transform_item_run (item : loc) (st : state) :
  unique_keys (heap st item) ->
  digits_are_decimal (int_max_str_digits st) (heap st item) ->
  exists st', transform_item item st = (Returned item, st')
    /\ updates st st' item
         (transformed (time_src st (time_calls st)) (heap st item))
         (if dict_contains "timestamp" (heap st item) then 0 else 1).
Proof.
  intros Huniq Hdec. unfold transform_item, transformed, bind, load.
  destruct (dict_contains "timestamp" (heap st item)) eqn:Hts; simpl.
  - destruct (convert_entries_run item (heap st item) [] st)
      as (st' & Hrun & Hupd); [reflexivity | exact Huniq | exact Hdec |].
    exists st'. rewrite Hrun. split; [reflexivity | exact Hupd].
  - unfold setitem, ret. simpl.
    set (t := time_src st (time_calls st)).
    set (st1 := {| heap := heap_update item
                             (dict_set "timestamp" (PInt t) (heap st item)) (heap st);
                   time_src := time_src st; time_calls := S (time_calls st);
                   int_max_str_digits := int_max_str_digits st |}).
    assert (Hheap1 : heap st1 item = heap st item ++ [("timestamp", PInt t)]).
    { simpl. rewrite heap_update_same. by apply dict_set_absent. }
    destruct (convert_entries_run item
                (heap st item ++ [("timestamp", PInt t)]) [] st1)
      as (st' & Hrun & Hheap' & Hother' & Hsrc' & Hcalls' & Hmax').
    + exact Hheap1.
    + by apply unique_keys_snoc.
    + intros k s [Hin|[[=]|[]]]%in_app_iff. by apply (Hdec k s).
    + exists st'. change (heap st1 item) with
        (heap_update item (dict_set "timestamp" (PInt t) (heap st item))
           (heap st) item).
      rewrite heap_update_same, dict_set_absent by exact Hts.
      rewrite Hrun. split; [reflexivity|].
      unfold updates. split; [exact Hheap'|]. split; [|split; [|split]].
      * intros l Hl. rewrite Hother' by exact Hl. simpl.
        by apply heap_update_other.
      * exact Hsrc'.
      * rewrite Hcalls'. simpl. lia.
      * exact Hmax'.
Qed.

Lemma process_loop_run (cfg : config) (data processed : list loc) (st : state) :
  (forall item, In item data -> ready cfg st item) ->
  exists st',
    process_loop cfg data processed st =
      (Returned (processed
                 ++ List.filter (fun item => is_valid cfg (heap st item)) data), st')
    /\ (forall item, In item data -> is_valid cfg (heap st item) = true ->
          exists t, heap st' item = transformed t (heap st item))
    /\ (forall item, ~ (In item data /\ is_valid cfg (heap st item) = true) ->
          heap st' item = heap st item).
Proof.
  revert processed st.
  induction data as [|item rest IH]; intros processed st Hready.
  - exists st. simpl. rewrite app_nil_r.
    split; [reflexivity|]. split; [intros item [] | reflexivity].
  - simpl. unfold bind at 1. rewrite validate_item_run.
    destruct (is_valid cfg (heap st item)) eqn:Hvalid.
    + destruct (Hready item (or_introl eq_refl) Hvalid) as [Huniq Hdec].
      destruct (transform_item_run item st Huniq Hdec)
        as (st1 & Hrun & Hheap1 & Hother1 & _ & _ & Hmax1).
      set (t := time_src st (time_calls st)) in *.
      assert (Hvalid1 : forall l,
                is_valid cfg (heap st1 l) = is_valid cfg (heap st l)).
      { intros l. destruct (Nat.eq_dec l item) as [->|Hne].
        - rewrite Hheap1, Hvalid. by apply transformed_is_valid.
        - by rewrite Hother1. }
      destruct (IH (processed ++ [item]) st1) as (st' & Hloop & Hdone & Hrest).
      { intros l Hl Hv. destruct (Nat.eq_dec l item) as [->|Hne].
        - rewrite Hheap1. split;
            [by apply transformed_unique_keys
            | apply transformed_digits_are_decimal].
        - rewrite Hother1, Hmax1 by exact Hne. apply Hready; [by right|].
          by rewrite <- Hvalid1. }
      exists st'. unfold bind. rewrite Hrun, Hloop. split; [|split].
      * rewrite <- app_assoc. simpl. rewrite ?Hvalid.
        by rewrite (List.filter_ext _ _ Hvalid1).
      * intros l Hl Hv.
        destruct (in_dec Nat.eq_dec l rest) as [Hin|Hnotin].
        -- destruct (Hdone l Hin) as [t' Ht']; [by rewrite Hvalid1|].
           destruct (Nat.eq_dec l item) as [->|Hne].
           ++ exists t. rewrite Ht', Hheap1. apply transformed_idempotent.
           ++ exists t'. rewrite Ht'. by rewrite Hother1.
        -- destruct Hl as [<-|Hl]; [|contradiction].
           exists t. rewrite Hrest by tauto. exact Hheap1.
      * intros l Hl.
        assert (Hne : l <> item) by (intros ->; apply Hl; split; [by left | done]).
        rewrite Hrest, Hother1; [reflexivity | exact Hne |].
        rewrite Hvalid1. intros [Hin Hv]. apply Hl. split; [by right | done].
    + destruct (IH processed st) as (st' & Hloop & Hdone & Hrest).
      { intros l Hl. apply Hready. by right. }
      exists st'. rewrite Hloop. split; [reflexivity|]. split.
      * intros l [<-|Hl] Hv; [congruence|]. by apply Hdone.
      * intros l Hl. apply Hrest. intros [Hin Hv]. apply Hl. split; [by right|done].
Qed.

(** When the valid records are ready, [process_data] returns: its result
    lists the records of the batch that have every required field, in the
    order of the batch; each of them has been transformed where it stands,
    and every other object is as it was. *)
Theorem process_data_returns_valid_records (cfg : config) (data : list loc)
  (st : state) :
  (forall item, In item data -> ready cfg st item) ->
  exists st',
    process_data cfg data st =
      (Returned (List.filter (fun item => is_valid cfg (heap st item)) data), st')
    /\ (forall item, In item data -> has_required_fields cfg (heap st item) ->
          exists t, heap st' item = transformed t (heap st item))
    /\ (forall item, ~ (In item data /\ has_required_fields cfg (heap st item)) ->
          heap st' item = heap st item).
Proof.
  intros Hready. unfold process_data.
  destruct (process_loop_run cfg data [] st Hready) as (st' & Hrun & Hdone & Hrest).
  exists st'. split; [exact Hrun|]. split.
  - intros item Hin Hv. apply Hdone; [exact Hin | by apply is_valid_spec].
  - intros item Hnot. apply Hrest. rewrite is_valid_spec. exact Hnot.
Qed.

(** The example at the end of sample.py, with three required fields: the
    first two records come back, their digits converted and a timestamp
    added, and the third, which has no [score], is left out. *)
Example process_data_usage :
  exists st',
    process_data (require ["id"; "name"; "score"]) [0; 1; 2]%nat usage_state =
      (Returned [0; 1]%nat, st')
    /\ heap st' 0%nat =
       [("id", PInt 1); ("name", PStr "Alice"); ("score", PInt 95);
        ("timestamp", PInt 1714564800)]
    /\ heap st' 1%nat =
       [("id", PInt 2); ("name", PStr "Bob"); ("score", PInt 87);
        ("timestamp", PInt 1714564801)]
    /\ heap st' 2%nat = [("id", PStr "3"); ("name", PStr "Charlie")].
Proof. eexists. repeat split. Qed.

End SampleSpec.

(** * Further properties of the resource handler *)
Module LambdaMore.
Import Lambda Samples LambdaSpec.

(** The five status codes written in lambda_function.py. *)
Definition known_status (code : Z) : Prop :=
  code = 200 \/ code = 201 \/ code = 400 \/ code = 404 \/ code = 500.

(** [params['id']] for a mapping given by its entries *)
Definition parameter (key : string) (kvs : list (string * string)) : option string :=
  option_map snd (List.find (fun kv => String.eqb (fst kv) key) kvs).

(** [GET /items/...] with the path parameters [kvs] *)
Definition get_with (p : string) (kvs : list (string * string)) : event :=
  {| httpMethod := Some "GET"; path := Some p;
     pathParameters := Some (Some kvs); body := Some None |}.

(** [DELETE /items/...] with the path parameters [kvs] *)
Definition delete_with (p : string) (kvs : list (string * string)) : event :=
  {| httpMethod := Some "DELETE"; path := Some p;
     pathParameters := Some (Some kvs); body := Some None |}.

(** [POST /items] on an event that has no key [body] *)
Definition post_without_body_key : event :=
  {| httpMethod := Some "POST"; path := Some "/items";
     pathParameters := Some None; body := None |}.

(** [json.loads] on the body ["[]"], which parses to the empty list. *)
Definition list_json : json_module :=
  {| json_loads := fun _ => Returned (PList []);
     json_dumps := sample_dumps;
     json_dumps_default_str := sample_dumps |}.

(** The item of [one_item_world]. *)
Definition tea : dict := [("id", PStr "a1"); ("name", PStr "tea")].

Lemma startswith_items_ne (p : string) :
  startswith "/items/" p = true -> String.eqb p "/items" = false.
Proof.
  intros [rest ->]%startswith_app. reflexivity.
Qed.

Section Facts.
Variable json : json_module.

(** ** Creating *)

(** [POST /items] whose body is null or the empty string is answered 400
    with the error [Request body is required]; nothing is parsed or drawn
    and the world is left as it was. *)
Theorem create_without_body (ev : event) (w : world) :
  httpMethod ev = Some "POST" -> path ev = Some "/items" ->
  body ev = Some None \/ body ev = Some (Some "") ->
  lambda_handler json ev w =
  (Returned {| statusCode := 400; headers := json_cors_headers;
               resp_body := json_dumps json
                 (PDict [("error", PStr "Request body is required")]) |}, w).
Proof.
  intros Hm Hp Hbody.
  rewrite (lambda_handler_dispatch json ev "POST" "/items" w Hm Hp).
  unfold try_except, dispatch. simpl. unfold bind, event_item.
  destruct Hbody as [-> | ->]; reflexivity.
Qed.

(** [POST /items] on an event without the key [body] is answered 500 with
    the text of the [KeyError], and the world is left as it was. *)
Theorem create_without_body_key (ev : event) (w : world) :
  httpMethod ev = Some "POST" -> path ev = Some "/items" -> body ev = None ->
  lambda_handler json ev w =
  (Returned {| statusCode := 500; headers := json_cors_headers;
               resp_body := json_dumps json (PDict [("error", PStr "'body'")]) |}, w).
Proof.
  intros Hm Hp Hbody.
  rewrite (lambda_handler_dispatch json ev "POST" "/items" w Hm Hp).
  unfold try_except, dispatch. simpl. unfold bind, event_item.
  rewrite Hbody. reflexivity.
Qed.

(** A body that parses, but not to a dict, has no [get]: [POST /items] is
    answered 500 with the text of the [AttributeError]; an identifier has
    been drawn by then, but nothing is put in the table. *)
Theorem create_with_non_object (ev : event) (text : string) (data : pyval)
  (w : world) :
  httpMethod ev = Some "POST" -> path ev = Some "/items" ->
  body ev = Some (Some text) -> text <> "" ->
  json_loads json text = Returned data -> (forall kvs, data <> PDict kvs) ->
  exists w',
    lambda_handler json ev w =
    (Returned {| statusCode := 500; headers := json_cors_headers;
                 resp_body := json_dumps json
                   (PDict [("error",
                            PStr ("'" ++ type_name data
                                  ++ "' object has no attribute 'get'"))]) |}, w')
    /\ table w' = table w /\ uuid_calls w' = S (uuid_calls w).
Proof.
  intros Hm Hp Hbody Hne Hparse Hdata.
  rewrite (lambda_handler_dispatch json ev "POST" "/items" w Hm Hp).
  unfold try_except, dispatch. simpl. unfold bind, event_item.
  rewrite Hbody. simpl.
  destruct text as [|c text]; [congruence|].
  unfold create_item, bind, lift. rewrite Hparse. simpl.
  destruct data; try (eexists; split; [reflexivity | split; reflexivity]).
  exfalso. by eapply Hdata.
Qed.

(** A created item can be fetched: when the body parses to a dict,
    [create_item] answers 201 and [get_item] of the identifier just drawn, in
    the world that results, answers 200 with the body the creation returned. *)
Theorem create_then_get (text : string) (kvs : dict) (w : world) :
  text <> "" -> json_loads json text = Returned (PDict kvs) ->
  exists r w',
    create_item json (Some text) w = (Returned r, w')
    /\ statusCode r = 201
    /\ get_item json (uuid_src w (uuid_calls w)) w' =
       (Returned {| statusCode := 200; headers := json_cors_headers;
                    resp_body := resp_body r |}, w').
Proof.
  intros Hne Hparse.
  destruct (create_item_stamps json text kvs w Hne Hparse) as (w' & Hrun & Htable).
  eexists _, w'. split; [exact Hrun|]. split; [reflexivity|].
  unfold get_item, bind, table_get_item. rewrite Htable, lookup_insert_eq.
  reflexivity.
Qed.

(** Whatever [create_item] does, every entry of the table other than the
    one for the identifier drawn is as it was, and the sources of identifiers
    and of time are the same. *)
Theorem create_item_frame (b : option string) (w w' : world)
  (o : outcome response) :
  create_item json b w = (o, w') ->
  (forall k, k <> uuid_src w (uuid_calls w) -> table w' !! k = table w !! k)
  /\ uuid_src w' = uuid_src w /\ clock_src w' = clock_src w.
Proof.
  unfold create_item. intros H.
  destruct b as [[|c text]|]; try (inversion H; subst; by repeat split).
  unfold bind, lift in H.
  destruct (json_loads json (String c text)) as [e|data];
    [inversion H; subst; by repeat split|].
  simpl in H.
  destruct data; simpl in H; inversion H; subst; simpl;
    try (by repeat split).
  repeat split. intros k Hk. by rewrite lookup_insert_ne.
Qed.

(** What is put in the table by a creation: five fields in this order,
    [id] the identifier drawn, [name] and [description] the values of the
    parsed body or the empty string where it has none, whatever their type;
    one identifier and two readings of the clock are used. *)
Theorem created_item_fields (text : string) (kvs : dict) (w : world) :
  text <> "" -> json_loads json text = Returned (PDict kvs) ->
  exists r w' item,
    create_item json (Some text) w = (Returned r, w')
    /\ table w' !! uuid_src w (uuid_calls w) = Some item
    /\ map fst item = ["id"; "name"; "description"; "created_at"; "updated_at"]
    /\ dict_lookup "id" item = Some (PStr (uuid_src w (uuid_calls w)))
    /\ dict_lookup "name" item = Some (default (PStr "") (dict_lookup "name" kvs))
    /\ dict_lookup "description" item =
       Some (default (PStr "") (dict_lookup "description" kvs))
    /\ uuid_calls w' = S (uuid_calls w)
    /\ clock_calls w' = S (S (clock_calls w)).
Proof.
  intros Hne Hparse. destruct text as [|c text]; [congruence|].
  unfold create_item, bind, lift. rewrite Hparse. simpl.
  destruct (dict_lookup "name" kvs), (dict_lookup "description" kvs); simpl;
    eexists _, _, _; (split; [reflexivity|]);
    (split; [apply lookup_insert_eq|]); repeat split.
Qed.

(** ** Fetching and deleting *)

Lemma path_parameter_id_found (ev : event) (kvs : list (string * string))
  (item_id : string) (w : world) :
  pathParameters ev = Some (Some kvs) -> parameter "id" kvs = Some item_id ->
  path_parameter_id ev w = (Returned item_id, w).
Proof.
  unfold path_parameter_id, parameter, bind, event_item. intros -> Hid. simpl.
  destruct (List.find _ kvs) as [kv|]; [|discriminate].
  simpl in Hid. by inversion Hid.
Qed.

(** [GET] on a path that starts with [/items/] fetches the item whose
    identifier is [pathParameters['id']]; what follows [/items/] in the path
    is not looked at.  The answer is 200 with the item, or 404 with the error
    [Item not found]; the world is left as it was. *)
Theorem fetch_uses_path_parameter (ev : event) (p : string)
  (kvs : list (string * string)) (item_id : string) (w : world) :
  httpMethod ev = Some "GET" -> path ev = Some p ->
  startswith "/items/" p = true ->
  pathParameters ev = Some (Some kvs) -> parameter "id" kvs = Some item_id ->
  lambda_handler json ev w =
  (Returned
     match table w !! item_id with
     | Some item =>
         {| statusCode := 200; headers := json_cors_headers;
            resp_body := json_dumps_default_str json (PDict item) |}
     | None =>
         {| statusCode := 404; headers := json_cors_headers;
            resp_body := json_dumps json (PDict [("error", PStr "Item not found")]) |}
     end, w).
Proof.
  intros Hm Hp Hpre Hparams Hid.
  rewrite (lambda_handler_dispatch json ev "GET" p w Hm Hp).
  unfold try_except, dispatch.
  rewrite (startswith_items_ne p Hpre), Hpre. simpl.
  unfold bind. rewrite (path_parameter_id_found ev kvs item_id w Hparams Hid).
  unfold get_item, bind, table_get_item.
  destruct (table w !! item_id); reflexivity.
Qed.

(** [DELETE] on a path that starts with [/items/] is [delete_item] of
    [pathParameters['id']]: 404 when no item has this identifier, and
    otherwise 200 with that entry, and no other, removed from the table. *)
Theorem delete_uses_path_parameter (ev : event) (p : string)
  (kvs : list (string * string)) (item_id : string) (w : world) :
  httpMethod ev = Some "DELETE" -> path ev = Some p ->
  startswith "/items/" p = true ->
  pathParameters ev = Some (Some kvs) -> parameter "id" kvs = Some item_id ->
  exists r w',
    lambda_handler json ev w = (Returned r, w')
    /\ statusCode r = match table w !! item_id with Some _ => 200 | None => 404 end
    /\ table w' = delete item_id (table w)
    /\ (forall k, k <> item_id -> table w' !! k = table w !! k).
Proof.
  intros Hm Hp Hpre Hparams Hid.
  rewrite (lambda_handler_dispatch json ev "DELETE" p w Hm Hp).
  unfold try_except, dispatch. rewrite Hpre. simpl.
  unfold bind. rewrite (path_parameter_id_found ev kvs item_id w Hparams Hid).
  unfold delete_item, bind, table_get_item.
  destruct (table w !! item_id) as [item|] eqn:Hlook; simpl;
    eexists _, _; (split; [reflexivity|]); (split; [reflexivity|]); simpl.
  - split; [reflexivity|]. intros k Hk. by rewrite lookup_delete_ne.
  - split; [by rewrite delete_id | reflexivity].
Qed.

(** [GET] or [DELETE] on a path that starts with [/items/] is answered 500
    when the identifier cannot be read from the event: with the text of the
    [KeyError] when the event has no [pathParameters] or these have no [id],
    with that of the [TypeError] when [pathParameters] is null.  The world is
    left as it was. *)
Theorem item_request_without_id (ev : event) (method p : string) (w : world) :
  httpMethod ev = Some method -> path ev = Some p ->
  method = "GET" \/ method = "DELETE" ->
  startswith "/items/" p = true ->
  let answer (text : string) :=
    lambda_handler json ev w =
    (Returned {| statusCode := 500; headers := json_cors_headers;
                 resp_body := json_dumps json (PDict [("error", PStr text)]) |}, w) in
  match pathParameters ev with
  | None => answer "'pathParameters'"
  | Some None => answer "'NoneType' object is not subscriptable"
  | Some (Some kvs) => parameter "id" kvs = None -> answer "'id'"
  end.
Proof.
  intros Hm Hp Hmethod Hpre answer. subst answer.
  rewrite (lambda_handler_dispatch json ev method p w Hm Hp).
  unfold try_except, dispatch.
  rewrite (startswith_items_ne p Hpre), Hpre.
  assert (Hid : forall e,
            path_parameter_id ev w = (Raised e, w) ->
            (if String.eqb method "GET" && false then get_all_items json
             else if String.eqb method "POST" && false then
               let* body := event_item (body ev) "body" in create_item json body
             else if String.eqb method "GET" && true then
               let* item_id := path_parameter_id ev in get_item json item_id
             else if String.eqb method "DELETE" && true then
               let* item_id := path_parameter_id ev in delete_item json item_id
             else ret (not_found json)) w = (Raised e, w)).
  { intros e He. destruct Hmethod as [-> | ->]; simpl; unfold bind; by rewrite He. }
  destruct (pathParameters ev) as [[kvs|]|] eqn:Hparams.
  - intros Hnone. rewrite (Hid (KeyError "id")); [reflexivity|].
    unfold path_parameter_id, parameter, bind, event_item in *.
    rewrite Hparams. simpl. by destruct (List.find _ kvs).
  - rewrite (Hid (TypeError "'NoneType' object is not subscriptable"));
      [reflexivity|].
    unfold path_parameter_id, bind, event_item. by rewrite Hparams.
  - rewrite (Hid (KeyError "pathParameters")); [reflexivity|].
    unfold path_parameter_id, bind, event_item. by rewrite Hparams.
Qed.

(** ** What every request keeps *)

Lemma path_parameter_id_world (ev : event) (w w' : world) (o : outcome string) :
  path_parameter_id ev w = (o, w') -> w' = w.
Proof.
  unfold path_parameter_id, bind, event_item.
  destruct (pathParameters ev) as [[kvs|]|]; simpl;
    [destruct (List.find _ kvs)|..]; by intros [= _ <-].
Qed.

Lemma create_item_effect (b : option string) (w w' : world)
  (o : outcome response) :
  create_item json b w = (o, w') ->
  match o with
  | Returned r =>
      (statusCode r = 400 /\ w' = w) \/ statusCode r = 201
  | Raised _ => table w' = table w
  end.
Proof.
  unfold create_item. intros H.
  destruct b as [[|c text]|]; try (inversion H; subst; by left).
  unfold bind, lift in H.
  destruct (json_loads json (String c text)) as [e|data];
    [by inversion H; subst|].
  simpl in H. destruct data; simpl in H; inversion H; subst; simpl;
    try reflexivity.
  by right.
Qed.

Lemma get_item_effect (item_id : string) (w : world) :
  exists r, get_item json item_id w = (Returned r, w)
            /\ (statusCode r = 200 \/ statusCode r = 404).
Proof.
  unfold get_item, bind, table_get_item.
  destruct (table w !! item_id); eexists; (split; [reflexivity|]); tauto.
Qed.

Lemma delete_item_effect (item_id : string) (w : world) :
  exists r w', delete_item json item_id w = (Returned r, w')
    /\ ((statusCode r = 404 /\ w' = w) \/ statusCode r = 200).
Proof.
  unfold delete_item, bind, table_get_item.
  destruct (table w !! item_id); eexists _, _; (split; [reflexivity|]); tauto.
Qed.

Lemma get_all_items_effect (w : world) :
  exists r, get_all_items json w = (Returned r, w) /\ statusCode r = 200.
Proof. eexists. split; reflexivity. Qed.

(** What one run of the [try] body can do. *)
Lemma dispatch_effect (method p : string) (ev : event) (w w' : world)
  (o : outcome response) :
  dispatch json method p ev w = (o, w') ->
  (method = "GET" -> w' = w)
  /\ match o with
     | Raised _ => table w' = table w
     | Returned r =>
         (table w' = table w
          /\ (statusCode r = 200 \/ statusCode r = 400 \/ statusCode r = 404))
         \/ (method = "POST" /\ statusCode r = 201)
         \/ (method = "DELETE" /\ statusCode r = 200)
     end.
Proof.
  unfold dispatch. intros H.
  destruct (String.eqb method "GET") eqn:Hget;
    [apply String.eqb_eq in Hget; subst method; simpl in H|].
  - destruct (String.eqb p "/items").
    + destruct (get_all_items_effect w) as (r & Hrun & Hr).
      rewrite Hrun in H. inversion H; subst. split; [reflexivity|]. left. tauto.
    + destruct (startswith "/items/" p).
      * unfold bind in H.
        destruct (path_parameter_id ev w) as [[e|item_id] w1] eqn:Hid;
          apply path_parameter_id_world in Hid; subst w1.
        -- by inversion H; subst.
        -- destruct (get_item_effect item_id w) as (r & Hrun & Hr).
           rewrite Hrun in H. inversion H; subst.
           split; [reflexivity|]. left. tauto.
      * inversion H; subst. split; [reflexivity|]. left. simpl. tauto.
  - simpl in H. split; [intros ->; discriminate|].
    destruct (String.eqb method "POST" && String.eqb p "/items") eqn:Hpost.
    + apply andb_prop in Hpost as [Hpost%String.eqb_eq _].
      unfold bind, event_item in H. destruct (body ev) as [b|].
      * apply create_item_effect in H. destruct o as [e|r]; [exact H|].
        destruct H as [[H400 ->]|H201]; [left; tauto | right; left; tauto].
      * inversion H; subst. reflexivity.
    + destruct (String.eqb method "DELETE" && startswith "/items/" p) eqn:Hdel.
      * apply andb_prop in Hdel as [Hdel%String.eqb_eq _].
        unfold bind in H.
        destruct (path_parameter_id ev w) as [[e|item_id] w1] eqn:Hid;
          apply path_parameter_id_world in Hid; subst w1.
        -- inversion H; subst. reflexivity.
        -- destruct (delete_item_effect item_id w) as (r & w2 & Hrun & Hr).
           rewrite Hrun in H. inversion H; subst.
           destruct Hr as [[H404 ->]|H200]; [left; tauto | right; right; tauto].
      * inversion H; subst. left. simpl. tauto.
Qed.

(** A request changes the table only when it is a [POST] answered 201 or
    a [DELETE] answered 200; every other answer, the 400, 404 and 500 among
    them, and every exception leave the table as it was. *)
Theorem table_changes_only_on_success (ev : event) (w w' : world)
  (o : outcome response) :
  lambda_handler json ev w = (o, w') ->
  table w' = table w
  \/ (exists r, o = Returned r /\ httpMethod ev = Some "POST" /\ statusCode r = 201)
  \/ (exists r, o = Returned r /\ httpMethod ev = Some "DELETE" /\ statusCode r = 200).
Proof.
  unfold lambda_handler, bind, event_item.
  destruct (httpMethod ev) as [method|]; [|intros [= _ <-]; by left].
  destruct (path ev) as [p|]; [|intros [= _ <-]; by left].
  unfold try_except, ret.
  destruct (dispatch json method p ev w) as [[e|r] w1] eqn:Hd;
    apply dispatch_effect in Hd as [_ Hd]; intros [= <- <-].
  - by left.
  - destruct Hd as [[Htable _]|[[-> H201]|[-> H200]]];
      [by left | right; left | right; right]; by exists r.
Qed.

(** A [GET] request, whatever its path and whatever the answer, leaves
    the whole world as it was: the table, and the sources of identifiers and
    of time. *)
Theorem get_requests_read_only (ev : event) (w w' : world)
  (o : outcome response) :
  httpMethod ev = Some "GET" ->
  lambda_handler json ev w = (o, w') -> w' = w.
Proof.
  intros Hm. unfold lambda_handler, bind, event_item. rewrite Hm.
  destruct (path ev) as [p|]; [|by intros [= _ <-]].
  unfold try_except, ret.
  destruct (dispatch json "GET" p ev w) as [[e|r] w1] eqn:Hd;
    apply dispatch_effect in Hd as [Hw _]; intros [= _ <-]; by apply Hw.
Qed.

(** The status code of an envelope the handler returns is one of 200,
    201, 400, 404 and 500. *)
Theorem status_codes (ev : event) (w w' : world) (r : response) :
  lambda_handler json ev w = (Returned r, w') -> known_status (statusCode r).
Proof.
  unfold lambda_handler, bind, event_item.
  destruct (httpMethod ev) as [method|]; [|discriminate].
  destruct (path ev) as [p|]; [|discriminate].
  unfold try_except, known_status, ret.
  destruct (dispatch json method p ev w) as [[e|r0] w1] eqn:Hd;
    apply dispatch_effect in Hd as [_ Hd]; intros [= <- <-]; simpl; tauto.
Qed.

(** ** Listing *)

(** [GET /items] is answered 200 with every item of the table, each
    once per key that holds it, and with their number as [count]; the world
    is left as it was. *)
Theorem list_all_items (ev : event) (w : world) :
  httpMethod ev = Some "GET" -> path ev = Some "/items" ->
  exists items,
    lambda_handler json ev w =
    (Returned {| statusCode := 200; headers := json_cors_headers;
                 resp_body := json_dumps_default_str json
                   (PDict [("items", PList (map PDict items));
                           ("count", PInt (Z.of_nat (size (table w))))]) |}, w)
    /\ length items = size (table w)
    /\ (forall item, In item items <-> exists k, table w !! k = Some item).
Proof.
  intros Hm Hp.
  rewrite (lambda_handler_dispatch json ev "GET" "/items" w Hm Hp).
  exists (map snd (map_to_list (table w))).
  assert (Hlen : length (map snd (map_to_list (table w))) = size (table w)).
  { by rewrite length_map, length_map_to_list. }
  split; [|split; [exact Hlen|]].
  - unfold try_except, dispatch, get_all_items, bind, table_scan. simpl.
    by rewrite Hlen.
  - intros item. rewrite in_map_iff. split.
    + intros ([k v] & <- & Hin). exists k.
      by apply elem_of_map_to_list, list_elem_of_In.
    + intros [k Hk]. exists (k, item). split; [reflexivity|].
      by apply list_elem_of_In, elem_of_map_to_list.
Qed.

End Facts.

(** ** On the sample inputs *)

Lemma create_without_body_witness :
  lambda_handler sample_json (post_items "") one_item_world =
  (Returned {| statusCode := 400; headers := json_cors_headers;
               resp_body := sample_dumps
                 (PDict [("error", PStr "Request body is required")]) |},
   one_item_world).
Proof.
  apply (create_without_body sample_json (post_items "") one_item_world);
    [reflexivity | reflexivity | right; reflexivity].
Defined.

Lemma create_without_body_key_witness :
  lambda_handler sample_json post_without_body_key one_item_world =
  (Returned {| statusCode := 500; headers := json_cors_headers;
               resp_body := sample_dumps (PDict [("error", PStr "'body'")]) |},
   one_item_world).
Proof.
  apply (create_without_body_key sample_json post_without_body_key one_item_world);
    reflexivity.
Defined.

Lemma create_with_non_object_witness :
  exists w',
    lambda_handler list_json (post_items "[]") one_item_world =
    (Returned {| statusCode := 500; headers := json_cors_headers;
                 resp_body := sample_dumps
                   (PDict [("error",
                            PStr "'list' object has no attribute 'get'")]) |}, w')
    /\ table w' = table one_item_world
    /\ uuid_calls w' = S (uuid_calls one_item_world).
Proof.
  apply (create_with_non_object list_json (post_items "[]") "[]" (PList [])
           one_item_world);
    [reflexivity | reflexivity | reflexivity | discriminate | reflexivity
    | discriminate].
Defined.

Lemma create_then_get_witness :
  exists r w',
    create_item sample_json (Some "{}") one_item_world = (Returned r, w')
    /\ statusCode r = 201
    /\ get_item sample_json (sample_uuids 0) w' =
       (Returned {| statusCode := 200; headers := json_cors_headers;
                    resp_body := resp_body r |}, w').
Proof.
  apply (create_then_get sample_json "{}" [] one_item_world);
    [discriminate | reflexivity].
Defined.

Lemma create_item_frame_witness :
  let res := create_item sample_json (Some "{}") one_item_world in
  (forall k, k <> sample_uuids 0 -> table (snd res) !! k = table one_item_world !! k)
  /\ uuid_src (snd res) = sample_uuids /\ clock_src (snd res) = ticking_clock.
Proof.
  intros res.
  apply (create_item_frame sample_json (Some "{}") one_item_world (snd res) (fst res)).
  apply surjective_pairing.
Defined.

Lemma created_item_fields_witness :
  exists r w' item,
    create_item sample_json (Some "{}") one_item_world = (Returned r, w')
    /\ table w' !! sample_uuids 0 = Some item
    /\ map fst item = ["id"; "name"; "description"; "created_at"; "updated_at"]
    /\ dict_lookup "id" item = Some (PStr (sample_uuids 0))
    /\ dict_lookup "name" item = Some (PStr "")
    /\ dict_lookup "description" item = Some (PStr "")
    /\ uuid_calls w' = 1%nat
    /\ clock_calls w' = 2%nat.
Proof.
  apply (created_item_fields sample_json "{}" [] one_item_world);
    [discriminate | reflexivity].
Defined.

Lemma fetch_uses_path_parameter_witness :
  lambda_handler sample_json (get_with "/items/zz" [("id", "a1")]) one_item_world =
  (Returned {| statusCode := 200; headers := json_cors_headers;
               resp_body := sample_dumps (PDict tea) |}, one_item_world).
Proof.
  pose proof (fetch_uses_path_parameter sample_json
                (get_with "/items/zz" [("id", "a1")]) "/items/zz" [("id", "a1")]
                "a1" one_item_world eq_refl eq_refl eq_refl eq_refl eq_refl) as H.
  change (table one_item_world !! "a1")
    with (({[ "a1" := tea ]} : gmap string dict) !! "a1") in H.
  rewrite lookup_singleton_eq in H. exact H.
Defined.

Lemma delete_uses_path_parameter_witness :
  exists r w',
    lambda_handler sample_json (delete_with "/items/zz" [("id", "a1")])
      one_item_world = (Returned r, w')
    /\ statusCode r =
       match table one_item_world !! "a1" with Some _ => 200 | None => 404 end
    /\ table w' = delete "a1" (table one_item_world)
    /\ (forall k, k <> "a1" -> table w' !! k = table one_item_world !! k).
Proof.
  apply (delete_uses_path_parameter sample_json
           (delete_with "/items/zz" [("id", "a1")]) "/items/zz" [("id", "a1")]
           "a1" one_item_world); reflexivity.
Defined.

Lemma item_request_without_id_witness :
  lambda_handler sample_json (delete_with "/items/a1" [("key", "a1")])
    one_item_world =
  (Returned {| statusCode := 500; headers := json_cors_headers;
               resp_body := sample_dumps (PDict [("error", PStr "'id'")]) |},
   one_item_world).
Proof.
  apply (item_request_without_id sample_json
           (delete_with "/items/a1" [("key", "a1")]) "DELETE" "/items/a1"
           one_item_world eq_refl eq_refl (or_intror eq_refl) eq_refl).
  reflexivity.
Defined.

Lemma table_changes_only_on_success_witness :
  table one_item_world = table one_item_world
  \/ (exists r, Returned null_parameters_response = Returned r
                /\ httpMethod (request "GET" "/items/a1") = Some "POST"
                /\ statusCode r = 201)
  \/ (exists r, Returned null_parameters_response = Returned r
                /\ httpMethod (request "GET" "/items/a1") = Some "DELETE"
                /\ statusCode r = 200).
Proof.
  apply (table_changes_only_on_success sample_json (request "GET" "/items/a1")
           one_item_world one_item_world (Returned null_parameters_response)).
  reflexivity.
Defined.

Lemma get_requests_read_only_witness :
  snd (lambda_handler sample_json (request "GET" "/items") one_item_world) =
  one_item_world.
Proof.
  apply (get_requests_read_only sample_json (request "GET" "/items")
           one_item_world _
           (fst (lambda_handler sample_json (request "GET" "/items") one_item_world)));
    [reflexivity | apply surjective_pairing].
Defined.

Lemma status_codes_witness : known_status (statusCode null_parameters_response).
Proof.
  apply (status_codes sample_json (request "GET" "/items/a1") one_item_world
           one_item_world null_parameters_response).
  reflexivity.
Defined.

Lemma list_all_items_witness :
  exists items,
    lambda_handler sample_json (request "GET" "/items") one_item_world =
    (Returned {| statusCode := 200; headers := json_cors_headers;
                 resp_body := sample_dumps
                   (PDict [("items", PList (map PDict items));
                           ("count", PInt (Z.of_nat (size (table one_item_world))))]) |},
     one_item_world)
    /\ length items = size (table one_item_world)
    /\ (forall item, In item items <->
                     exists k, table one_item_world !! k = Some item).
Proof.
  apply (list_all_items sample_json (request "GET" "/items") one_item_world);
    reflexivity.
Defined.

End LambdaMore.

(** * Further properties of the record transformer *)
Module SampleMore.
Import Sample Samples SampleSpec.
Local Open Scope list_scope.

(** Some value of the record passes [isdigit] and is not one [int]
    converts under the limit [max_str_digits]: it has a superscript digit in
    it, or more digits than the limit allows. *)
Definition has_undecodable_digits (max_str_digits : nat) (d : dict) : Prop :=
  exists key s, In (key, PStr s) d /\ isdigit s = true
                /\ int_accepts max_str_digits s = false.

(** No object has lost a field between [st] and [st']. *)
Definition keeps_fields (st st' : state) : Prop :=
  forall l key, dict_contains key (heap st l) = true ->
                dict_contains key (heap st' l) = true.

(** The record is one [_transform_item] leaves alone: it has its
    [timestamp] and no value of it passes [isdigit]. *)
Definition settled (d : dict) : Prop :=
  dict_contains "timestamp" d = true
  /\ forall key s, In (key, PStr s) d -> isdigit s = false.

(** The batch and the configuration of the example at the end of
    sample.py, with [score] required. *)
Definition usage_batch : list loc := [0; 1; 2]%nat.
Definition usage_config : config := require ["id"; "name"; "score"].

(** The state [process_data] reaches on them. *)
Definition usage_processed : state :=
  snd (process_data usage_config usage_batch usage_state).

(** A string of [n] nines. *)
Fixpoint nines (n : nat) : string :=
  match n with
  | O => EmptyString
  | S m => String "9"%char (nines m)
  end.

(** A record whose field [serial] holds 4301 nines, one digit more than
    the default limit, and a state with this record for every object. *)
Definition long_record : dict :=
  [("serial", PStr (nines 4301)); ("timestamp", PInt 1714560000)].

Definition long_state : state :=
  {| heap := fun _ => long_record;
     time_src := epoch_clock; time_calls := 0;
     int_max_str_digits := 4300 |}.

(** ** Validity *)


(** ** What a run keeps, returning or raising *)

Lemma dict_contains_set (key k : string) (v : pyval) (d : dict) :
  dict_contains key (dict_set k v d) = dict_contains key d || String.eqb k key.
Proof.
  induction d as [|[k0 w] rest IH]; simpl.
  - by destruct (String.eqb k key).
  - destruct (String.eqb k0 k) eqn:Hk; simpl.
    + apply String.eqb_eq in Hk. subst k0.
      destruct (String.eqb k key); [reflexivity | by rewrite orb_false_r].
    + rewrite IH. by destruct (String.eqb k0 key).
Qed.

Lemma keeps_fields_refl (st : state) : keeps_fields st st.
Proof. by intros l key. Qed.

Lemma keeps_fields_trans (st1 st2 st3 : state) :
  keeps_fields st1 st2 -> keeps_fields st2 st3 -> keeps_fields st1 st3.
Proof. intros H12 H23 l key H. by apply H23, H12. Qed.

Lemma setitem_effect (item : loc) (key : string) (v : pyval) (st : state) :
  exists st', setitem item key v st = (Returned tt, st')
    /\ keeps_fields st st'
    /\ (forall l, l <> item -> heap st' l = heap st l)
    /\ time_src st' = time_src st /\ time_calls st' = time_calls st.
Proof.
  eexists. split; [reflexivity|]. simpl. split; [|split; [|split; reflexivity]].
  - intros l k Hk. simpl. unfold heap_update.
    destruct (Nat.eqb l item) eqn:Hl; [|exact Hk].
    apply Nat.eqb_eq in Hl. subst l. by rewrite dict_contains_set, Hk.
  - intros l Hl. by apply heap_update_other.
Qed.

Lemma convert_entries_effect (item : loc) (entries : dict) (st st' : state)
  (o : outcome unit) :
  convert_entries item entries st = (o, st') ->
  keeps_fields st st'
  /\ (forall l, l <> item -> heap st' l = heap st l)
  /\ time_src st' = time_src st /\ time_calls st' = time_calls st
  /\ (forall e, o = Raised e -> exists msg, e = ValueError msg).
Proof.
  revert st. induction entries as [|[key value] rest IH]; intros st; simpl.
  - intros [= <- <-]. split; [apply keeps_fields_refl|]. by repeat split.
  - unfold bind at 1.
    assert (Hstep :
      (exists st1,
         (match value with
          | PStr s => if isdigit s then
                        let* n := int_of_str s in setitem item key (PInt n)
                      else ret tt
          | _ => ret tt
          end) st = (Returned tt, st1)
         /\ keeps_fields st st1
         /\ (forall l, l <> item -> heap st1 l = heap st l)
         /\ time_src st1 = time_src st /\ time_calls st1 = time_calls st)
      \/ (exists msg,
            (match value with
             | PStr s => if isdigit s then
                           let* n := int_of_str s in setitem item key (PInt n)
                         else ret tt
             | _ => ret tt
             end) st = (Raised (ValueError msg), st))).
    { assert (Hnone : exists st1, ret tt st = (Returned tt, st1)
                /\ keeps_fields st st1
                /\ (forall l, l <> item -> heap st1 l = heap st l)
                /\ time_src st1 = time_src st /\ time_calls st1 = time_calls st).
      { exists st. split; [reflexivity|]. split; [apply keeps_fields_refl|].
        by repeat split. }
      destruct value as [| | | |s| |]; try (left; exact Hnone).
      destruct (isdigit s); [|left; exact Hnone].
      unfold bind, int_of_str.
      destruct (int_accepts (int_max_str_digits st) s) eqn:Hint.
      - rewrite (py_int_accepts _ _ Hint). left. apply setitem_effect.
      - destruct (py_int_raises _ _ Hint) as [msg ->]. right. by eexists. }
    destruct Hstep as [(st1 & -> & Hkeep & Hother & Hsrc & Hcalls)|[msg ->]].
    + intros H. apply IH in H as (Hkeep' & Hother' & Hsrc' & Hcalls' & Hexn).
      split; [by eapply keeps_fields_trans|]. split; [|split; [|split]].
      * intros l Hl. rewrite Hother' by exact Hl. by apply Hother.
      * congruence.
      * congruence.
      * exact Hexn.
    + intros [= <- <-]. split; [apply keeps_fields_refl|].
      repeat split. intros e [= <-]. by eexists.
Qed.

Lemma transform_item_effect (item : loc) (st st' : state) (o : outcome loc) :
  transform_item item st = (o, st') ->
  keeps_fields st st'
  /\ (forall l, l <> item -> heap st' l = heap st l)
  /\ time_src st' = time_src st
  /\ match o with
     | Returned processed_item => processed_item = item
     | Raised e => exists msg, e = ValueError msg
     end.
Proof.
  unfold transform_item, bind at 1, load. unfold bind at 1.
  assert (Hstamp : exists st1,
    (if negb (dict_contains "timestamp" (heap st item)) then
       let* t := int_time in setitem item "timestamp" (PInt t)
     else ret tt) st = (Returned tt, st1)
    /\ keeps_fields st st1
    /\ (forall l, l <> item -> heap st1 l = heap st l)
    /\ time_src st1 = time_src st).
  { destruct (dict_contains "timestamp" (heap st item)); simpl.
    - exists st. split; [reflexivity|]. split; [apply keeps_fields_refl|].
      by split.
    - unfold bind, int_time.
      destruct (setitem_effect item "timestamp"
                  (PInt (time_src st (time_calls st)))
                  {| heap := heap st; time_src := time_src st;
                     time_calls := S (time_calls st);
                     int_max_str_digits := int_max_str_digits st |})
        as (st1 & Hrun & Hkeep & Hother & Hsrc & _).
      exists st1. split; [exact Hrun|]. by repeat split. }
  destruct Hstamp as (st1 & -> & Hkeep & Hother & Hsrc).
  unfold bind.
  destruct (convert_entries item (heap st1 item) st1) as [[e|[]] st2] eqn:Hloop;
    apply convert_entries_effect in Hloop
      as (Hkeep' & Hother' & Hsrc' & _ & Hexn);
    intros [= <- <-];
    (split; [by eapply keeps_fields_trans|]);
    (split; [intros l Hl; rewrite Hother' by exact Hl; by apply Hother|]);
    (split; [congruence|]).
  - by apply Hexn.
  - reflexivity.
Qed.

Lemma is_valid_keeps (cfg : config) (st st' : state) (l : loc) :
  keeps_fields st st' ->
  is_valid cfg (heap st l) = true -> is_valid cfg (heap st' l) = true.
Proof.
  unfold is_valid. rewrite !forallb_forall. intros Hkeep H field Hin.
  apply Hkeep, H, Hin.
Qed.

Lemma process_loop_effect (cfg : config) (data processed : list loc)
  (st st' : state) (o : outcome (list loc)) :
  process_loop cfg data processed st = (o, st') ->
  keeps_fields st st'
  /\ (forall l, ~ (In l data /\ is_valid cfg (heap st l) = true) ->
        heap st' l = heap st l)
  /\ time_src st' = time_src st
  /\ match o with
     | Returned out =>
         out = processed
               ++ List.filter (fun l => is_valid cfg (heap st l)) data
     | Raised e => exists msg, e = ValueError msg
     end.
Proof.
  revert processed st.
  induction data as [|item rest IH]; intros processed st; simpl.
  - intros [= <- <-]. split; [apply keeps_fields_refl|].
    rewrite app_nil_r. by repeat split.
  - unfold bind at 1. rewrite validate_item_run.
    destruct (is_valid cfg (heap st item)) eqn:Hvalid.
    + unfold bind.
      destruct (transform_item item st) as [[e|x] st1] eqn:Hrun;
        apply transform_item_effect in Hrun as (Hkeep & Hother & Hsrc & Ho).
      * intros [= <- <-]. split; [exact Hkeep|]. split; [|split; [exact Hsrc|exact Ho]].
        intros l Hl. apply Hother. intros ->. apply Hl. split; [by left|done].
      * subst x. intros H.
        apply IH in H as (Hkeep' & Hrest & Hsrc' & Ho').
        assert (Hvalid1 : forall l,
                  is_valid cfg (heap st1 l) = is_valid cfg (heap st l)).
        { intros l. destruct (Nat.eq_dec l item) as [->|Hne].
          - rewrite Hvalid. by apply (is_valid_keeps cfg st st1).
          - by rewrite Hother. }
        split; [by eapply keeps_fields_trans|]. split; [|split; [congruence|]].
        -- intros l Hl.
           assert (Hne : l <> item)
             by (intros ->; apply Hl; split; [by left | done]).
           rewrite Hrest, Hother; [reflexivity | exact Hne |].
           rewrite Hvalid1. intros [Hin Hv]. apply Hl. split; [by right|done].
        -- destruct o as [e|out]; [exact Ho'|].
           rewrite Ho', <- app_assoc. simpl.
           by rewrite (List.filter_ext _ _ Hvalid1).
    + intros H. apply IH in H as (Hkeep' & Hrest & Hsrc' & Ho').
      split; [exact Hkeep'|]. split; [|split; [exact Hsrc'|exact Ho']].
      intros l Hl. apply Hrest. intros [Hin Hv]. apply Hl. split; [by right|done].
Qed.

(** Whenever [process_data] returns, its result lists exactly the records
    of the batch that had every required field when the call began, in the
    order of the batch; it is no longer than the batch, and every record in
    it still has every required field when the call ends. *)
Theorem process_data_result (cfg : config) (data out : list loc) (st st' : state) :
  process_data cfg data st = (Returned out, st') ->
  out = List.filter (fun item => is_valid cfg (heap st item)) data
  /\ (length out <= length data)%nat
  /\ forall item, In item out ->
       In item data /\ has_required_fields cfg (heap st' item).
Proof.
  unfold process_data. intros H.
  apply process_loop_effect in H as (Hkeep & _ & _ & ->). simpl.
  split; [reflexivity|]. split; [apply List.filter_length_le|].
  intros item [Hin Hvalid]%filter_In. split; [exact Hin|].
  apply is_valid_spec. by apply (is_valid_keeps cfg st st').
Qed.

(** Whether [process_data] returns or raises: an object that is not a
    record of the batch with every required field is exactly as it was, no
    object has lost a field, and the clock's source is the same. *)
Theorem process_data_frame (cfg : config) (data : list loc) (st st' : state)
  (o : outcome (list loc)) :
  process_data cfg data st = (o, st') ->
  (forall l, ~ (In l data /\ has_required_fields cfg (heap st l)) ->
     heap st' l = heap st l)
  /\ keeps_fields st st'
  /\ time_src st' = time_src st.
Proof.
  unfold process_data. intros H.
  apply process_loop_effect in H as (Hkeep & Hrest & Hsrc & _).
  split; [|by split]. intros l Hl. apply Hrest. by rewrite is_valid_spec.
Qed.

(** With no required fields configured, be it that the configuration has
    no entry [required_fields] or an empty one, nothing is filtered out:
    whenever [process_data] returns, it returns the whole batch. *)
Theorem process_data_without_requirements (cfg : config) (data out : list loc)
  (st st' : state) :
  required_fields cfg = None \/ required_fields cfg = Some [] ->
  process_data cfg data st = (Returned out, st') -> out = data.
Proof.
  intros Hcfg H. unfold process_data in H.
  apply process_loop_effect in H as (_ & _ & _ & ->). simpl.
  assert (Hall : forall d, is_valid cfg d = true).
  { intros d. unfold is_valid. by destruct Hcfg as [-> | ->]. }
  induction data as [|item rest IH]; simpl; [reflexivity|].
  by rewrite Hall, IH.
Qed.

(** ** When a run raises *)

Lemma convert_entries_raises_iff (item : loc) (entries : dict) (st : state) :
  (exists e st', convert_entries item entries st = (Raised e, st'))
  <-> has_undecodable_digits (int_max_str_digits st) entries.
Proof.
  revert st. induction entries as [|[key value] rest IH]; intros st; simpl.
  - split; [intros (e & st' & [=]) | intros (k & s & [] & _)].
  - unfold bind at 1.
    destruct value as [| | | |s| |];
      try (simpl; rewrite IH; unfold has_undecodable_digits; split;
           [intros (k & s & Hin & Hs); exists k, s; split; [by right | exact Hs]
           |intros (k & s & [[=]|Hin] & Hs); exists k, s; by split]).
    destruct (isdigit s) eqn:Hdigit.
    + unfold bind at 1, int_of_str.
      destruct (int_accepts (int_max_str_digits st) s) eqn:Hint.
      * rewrite (py_int_accepts _ _ Hint). simpl. rewrite IH. simpl.
        unfold has_undecodable_digits. split.
        -- intros (k & s' & Hin & Hs). exists k, s'. split; [by right | exact Hs].
        -- intros (k & s' & [[= _ <-]|Hin] & Hd & Hs); [congruence|].
           exists k, s'. by split.
      * destruct (py_int_raises _ _ Hint) as [msg ->].
        split; [|intros _; by eexists _, _].
        intros _. exists key, s. split; [by left | by split].
    + simpl. rewrite IH. unfold has_undecodable_digits. split.
      * intros (k & s' & Hin & Hs). exists k, s'. split; [by right | exact Hs].
      * intros (k & s' & [[= _ <-]|Hin] & Hd & Hs); [congruence|].
        exists k, s'. by split.
Qed.

Lemma transform_item_raises (item : loc) (st : state) :
  (exists e st', transform_item item st = (Raised e, st'))
  <-> has_undecodable_digits (int_max_str_digits st) (heap st item).
Proof.
  unfold transform_item, bind at 1, load. unfold bind at 1.
  destruct (dict_contains "timestamp" (heap st item)) eqn:Hts; simpl.
  - unfold bind. rewrite <- (convert_entries_raises_iff item (heap st item) st).
    destruct (convert_entries item (heap st item) st) as [[e|[]] st1];
      split; intros (e' & st' & H); try discriminate; by eexists _, _.
  - set (t := time_src st (time_calls st)).
    set (st1 := {| heap := heap_update item
                             (dict_set "timestamp" (PInt t) (heap st item)) (heap st);
                   time_src := time_src st; time_calls := S (time_calls st);
                   int_max_str_digits := int_max_str_digits st |}).
    assert (Hbad : has_undecodable_digits (int_max_str_digits st1) (heap st1 item)
                   <-> has_undecodable_digits (int_max_str_digits st)
                         (heap st item)).
    { simpl. rewrite heap_update_same, dict_set_absent by exact Hts.
      unfold has_undecodable_digits. split.
      - intros (k & s & [Hin|[[=]|[]]]%in_app_iff & Hs). by exists k, s.
      - intros (k & s & Hin & Hs). exists k, s. split; [|exact Hs].
        apply in_app_iff. by left. }
    rewrite <- Hbad, <- (convert_entries_raises_iff item (heap st1 item) st1).
    unfold bind.
    change (setitem item "timestamp" (PInt t)
              {| heap := heap st; time_src := time_src st;
                 time_calls := S (time_calls st);
                 int_max_str_digits := int_max_str_digits st |})
      with (Returned tt, st1).
    cbv beta iota.
    destruct (convert_entries item (heap st1 item) st1) as [[e|[]] st2];
      split; intros (e' & st' & H); try discriminate; by eexists _, _.
Qed.

(** [_transform_item] raises exactly on a record one of whose values
    passes [isdigit] and is rejected by [int]: among the strings of code
    points below 256, one with a superscript digit in it, or one of decimal
    digits longer than the interpreter's limit.  What it raises is the
    [ValueError] of [int]. *)
Theorem transform_item_raises_iff (item : loc) (st : state) :
  ((exists e st', transform_item item st = (Raised e, st'))
   <-> has_undecodable_digits (int_max_str_digits st) (heap st item))
  /\ forall e st', transform_item item st = (Raised e, st') ->
       exists msg, e = ValueError msg.
Proof.
  split; [apply transform_item_raises|].
  intros e st' H. by apply transform_item_effect in H as (_ & _ & _ & H).
Qed.

Lemma dict_set_strings (key k : string) (n : Z) (s : string) (d : dict) :
  In (k, PStr s) (dict_set key (PInt n) d) -> In (k, PStr s) d.
Proof.
  induction d as [|[k0 w] rest IH]; simpl.
  - by intros [[=]|[]].
  - destruct (String.eqb k0 key); simpl.
    + intros [[=]|Hin]; by right.
    + intros [Heq|Hin]; [by left | right; by apply IH].
Qed.

Lemma convert_entries_strings (item : loc) (entries : dict) (st st' : state)
  (o : outcome unit) :
  convert_entries item entries st = (o, st') ->
  forall l k s, In (k, PStr s) (heap st' l) -> In (k, PStr s) (heap st l).
Proof.
  revert st. induction entries as [|[key value] rest IH]; intros st; simpl.
  - by intros [= <- <-].
  - unfold bind at 1.
    destruct value as [| | | |s0| |]; try (simpl; by apply IH).
    destruct (isdigit s0); [|simpl; by apply IH].
    unfold bind at 1, int_of_str.
    destruct (py_int (int_max_str_digits st) s0) as [e|n]; [by intros [= <- <-]|].
    simpl. intros H l k s Hin. apply IH with (l := l) (k := k) (s := s) in H;
      [|exact Hin].
    simpl in H. unfold heap_update in H.
    destruct (Nat.eqb l item) eqn:Hl; [|exact H].
    apply Nat.eqb_eq in Hl. subst l. by apply dict_set_strings in H.
Qed.

Lemma transform_item_strings (item : loc) (st st' : state) (o : outcome loc) :
  transform_item item st = (o, st') ->
  forall l k s, In (k, PStr s) (heap st' l) -> In (k, PStr s) (heap st l).
Proof.
  unfold transform_item, bind at 1, load. unfold bind at 1.
  destruct (dict_contains "timestamp" (heap st item)); simpl.
  - unfold bind.
    destruct (convert_entries item (heap st item) st) as [[e|[]] st1] eqn:Hloop;
      intros [= <- <-]; by apply (convert_entries_strings _ _ _ _ _ Hloop).
  - unfold bind.
    match goal with
    | |- context [convert_entries item ?es ?st1] =>
        destruct (convert_entries item es st1) as [[e|[]] st2] eqn:Hloop
    end;
      intros [= <- <-]; intros l k s Hin;
      apply (convert_entries_strings _ _ _ _ _ Hloop) in Hin;
      simpl in Hin; unfold heap_update in Hin;
      (destruct (Nat.eqb l item) eqn:Hl; [|exact Hin]);
      apply Nat.eqb_eq in Hl; subst l; by apply dict_set_strings in Hin.
Qed.

Lemma convert_entries_limit (item : loc) (entries : dict) (st st' : state)
  (o : outcome unit) :
  convert_entries item entries st = (o, st') ->
  int_max_str_digits st' = int_max_str_digits st.
Proof.
  revert st. induction entries as [|[key value] rest IH]; intros st; simpl.
  - by intros [= <- <-].
  - unfold bind at 1.
    destruct value as [| | | |s0| |]; try (simpl; by apply IH).
    destruct (isdigit s0); [|simpl; by apply IH].
    unfold bind at 1, int_of_str.
    destruct (py_int (int_max_str_digits st) s0) as [e|n]; [by intros [= <- <-]|].
    simpl. intros H. by apply IH in H.
Qed.

Lemma transform_item_limit (item : loc) (st st' : state) (o : outcome loc) :
  transform_item item st = (o, st') ->
  int_max_str_digits st' = int_max_str_digits st.
Proof.
  unfold transform_item, bind at 1, load. unfold bind at 1.
  destruct (dict_contains "timestamp" (heap st item)); simpl.
  - unfold bind.
    destruct (convert_entries item (heap st item) st) as [[e|[]] st1] eqn:Hloop;
      intros [= <- <-]; by apply convert_entries_limit in Hloop.
  - unfold bind.
    match goal with
    | |- context [convert_entries item ?es ?st1] =>
        destruct (convert_entries item es st1) as [[e|[]] st2] eqn:Hloop
    end;
      intros [= <- <-]; by apply convert_entries_limit in Hloop.
Qed.

Lemma process_loop_raises_iff (cfg : config) (data processed : list loc)
  (st : state) :
  (exists e st', process_loop cfg data processed st = (Raised e, st'))
  <-> exists item, In item data /\ is_valid cfg (heap st item) = true
                   /\ has_undecodable_digits (int_max_str_digits st)
                        (heap st item).
Proof.
  revert processed st.
  induction data as [|item rest IH]; intros processed st; simpl.
  - split; [intros (e & st' & [=]) | intros (l & [] & _)].
  - unfold bind at 1. rewrite validate_item_run.
    destruct (is_valid cfg (heap st item)) eqn:Hvalid.
    + unfold bind.
      destruct (transform_item item st) as [[e|x] st1] eqn:Hrun.
      * split; [intros _ | intros _; by eexists _, _].
        exists item. split; [by left|]. split; [exact Hvalid|].
        apply (transform_item_raises item st). by eexists _, _.
      * assert (Hgood : ~ has_undecodable_digits (int_max_str_digits st)
                              (heap st item)).
        { intros Hbad. apply (transform_item_raises item st) in Hbad
            as (e & st' & Hbad). congruence. }
        pose proof (transform_item_strings _ _ _ _ Hrun) as Hstr.
        pose proof (transform_item_limit _ _ _ _ Hrun) as Hmax.
        apply transform_item_effect in Hrun as (Hkeep & Hother & _ & _).
        rewrite IH, Hmax. split.
        -- intros (l & Hin & Hv & (k & s & Hks & Hs)).
           destruct (Nat.eq_dec l item) as [->|Hne].
           ++ exfalso. apply Hgood. exists k, s. split; [by apply Hstr | exact Hs].
           ++ exists l. rewrite Hother in Hv, Hks by exact Hne.
              split; [by right|]. split; [exact Hv|]. by exists k, s.
        -- intros (l & [<-|Hin] & Hv & Hbad); [contradiction|].
           assert (Hne : l <> item) by (intros ->; contradiction).
           exists l. rewrite Hother by exact Hne. by repeat split.
    + rewrite IH. split.
      * intros (l & Hin & Hl). exists l. split; [by right | exact Hl].
      * intros (l & [<-|Hin] & Hv & Hbad); [congruence|]. by exists l.
Qed.


(** ** Records that returned *)

Lemma decodable_digits (max_str_digits : nat) (d : dict) :
  ~ has_undecodable_digits max_str_digits d ->
  digits_are_decimal max_str_digits d.
Proof.
  intros Hgood key s Hin Hdigit.
  destruct (int_accepts max_str_digits s) eqn:Hint; [reflexivity|].
  exfalso. apply Hgood. by exists key, s.
Qed.

Lemma transformed_settled (t : Z) (d : dict) : settled (transformed t d).
Proof.
  split; [apply transformed_has_timestamp|].
  intros key s Hin. unfold transformed in Hin.
  apply in_map_iff in Hin as ([k v] & [= _ Hv] & _).
  by apply convert_value_no_digits in Hv.
Qed.

Lemma transform_item_settled (item : loc) (st : state) :
  settled (heap st item) -> transform_item item st = (Returned item, st).
Proof.
  intros [Hts Hno]. unfold transform_item, bind, load. rewrite Hts. simpl.
  by rewrite (convert_entries_no_digits item (heap st item) st Hno).
Qed.

(** What a returning [_transform_item] has done to a record that has each
    key once: the object returned is the one given; a [timestamp] read from
    the clock is added at the end if there was none, and the clock is not
    read otherwise; every value that is a string of digits is replaced, where
    it stands, by the integer it denotes in base 10; nothing else changes, in
    this object or another. *)
Theorem transform_item_result (item x : loc) (st st' : state) :
  unique_keys (heap st item) ->
  transform_item item st = (Returned x, st') ->
  x = item
  /\ heap st' item = transformed (time_src st (time_calls st)) (heap st item)
  /\ (forall l, l <> item -> heap st' l = heap st l)
  /\ time_calls st' =
     (time_calls st + if dict_contains "timestamp" (heap st item) then 0 else 1)%nat.
Proof.
  intros Huniq Hrun.
  assert (Hdec : digits_are_decimal (int_max_str_digits st) (heap st item)).
  { apply decodable_digits. intros Hbad.
    apply (transform_item_raises item st) in Hbad as (e & st1 & Hbad). congruence. }
  destruct (transform_item_run item st Huniq Hdec)
    as (st1 & Hrun1 & Hheap & Hother & _ & Hcalls & _).
  rewrite Hrun in Hrun1. inversion Hrun1; subst. by repeat split.
Qed.

(** Transforming twice is transforming once: after [_transform_item] has
    returned for a record that has each key once, a second call on the same
    object returns it and changes nothing, the clock included. *)
Theorem transform_item_twice (item x : loc) (st st' : state) :
  unique_keys (heap st item) ->
  transform_item item st = (Returned x, st') ->
  transform_item item st' = (Returned item, st').
Proof.
  intros Huniq Hrun.
  assert (Hdec : digits_are_decimal (int_max_str_digits st) (heap st item)).
  { apply decodable_digits. intros Hbad.
    apply (transform_item_raises item st) in Hbad as (e & st1 & Hbad). congruence. }
  destruct (transform_item_run item st Huniq Hdec) as (st1 & Hrun1 & Hheap & _).
  rewrite Hrun in Hrun1. inversion Hrun1; subst.
  apply transform_item_settled. rewrite Hheap. apply transformed_settled.
Qed.

Lemma process_loop_settled (cfg : config) (data processed : list loc)
  (st : state) :
  (forall item, In item data ->
     is_valid cfg (heap st item) = true /\ settled (heap st item)) ->
  process_loop cfg data processed st = (Returned (processed ++ data), st).
Proof.
  revert processed. induction data as [|item rest IH]; intros processed Hall.
  - simpl. by rewrite app_nil_r.
  - simpl. unfold bind. rewrite validate_item_run.
    destruct (Hall item (or_introl eq_refl)) as [-> Hsettled].
    rewrite (transform_item_settled item st Hsettled).
    rewrite IH; [by rewrite <- app_assoc|].
    intros l Hl. apply Hall. by right.
Qed.

(** Processing the result of [process_data] again gives it back: when the
    records of the batch have each key once and [process_data] has returned,
    a second call on the list returned, in the state reached, returns the
    same list and changes nothing. *)
Theorem process_data_twice (cfg : config) (data out : list loc) (st st' : state) :
  (forall item, In item data -> unique_keys (heap st item)) ->
  process_data cfg data st = (Returned out, st') ->
  process_data cfg out st' = (Returned out, st').
Proof.
  intros Huniq Hrun.
  assert (Hready : forall item, In item data -> ready cfg st item).
  { intros item Hin Hvalid. split; [by apply Huniq|].
    apply decodable_digits. intros Hbad.
    assert (Hraise : exists e st1,
              process_loop cfg data [] st = (Raised e, st1)).
    { apply process_loop_raises_iff. by exists item. }
    destruct Hraise as (e & st1 & Hraise). unfold process_data in Hrun. congruence. }
  unfold process_data in *.
  destruct (process_loop_run cfg data [] st Hready) as (st1 & Hrun1 & Hdone & _).
  rewrite Hrun in Hrun1. inversion Hrun1; subst. simpl.
  apply (process_loop_settled cfg _ [] st1).
  intros item [Hin Hvalid]%filter_In.
  destruct (Hdone item Hin Hvalid) as [t Ht]. rewrite Ht.
  split; [by apply transformed_is_valid | apply transformed_settled].
Qed.

(** ** Loading the configuration, the other outcomes *)

(** [_load_config] hands on the document of a file that can be read and
    parsed, and whatever it raises is not a [FileNotFoundError]. *)
Theorem load_config_outcomes (json : json_module) (fs : file_system)
  (config_path : string) :
  (forall text v, fs config_path = Returned text ->
     json_loads json text = Returned v ->
     load_config json fs config_path = Returned v)
  /\ (forall e, load_config json fs config_path = Raised e ->
        is_FileNotFoundError e = false).
Proof.
  unfold load_config, json_load. split.
  - by intros text v -> ->.
  - intros e. destruct (fs config_path) as [e0|text];
      [|destruct (json_loads json text) as [e0|v]; [|discriminate]];
      destruct (is_FileNotFoundError e0) eqn:He0; congruence.
Qed.

(** ** On the sample inputs *)

(** With the default limit, 4300 nines are converted and 4301 are
    refused; with no limit, 4301 nines are converted. *)
Example py_int_at_the_limit :
  py_int 4300 (nines 4300) = Returned (decimal_value 0 (nines 4300))
  /\ py_int 4300 (nines 4301) =
     Raised (ValueError
               "Exceeds the limit (4300 digits) for integer string conversion: value has 4301 digits; use sys.set_int_max_str_digits() to increase the limit")
  /\ py_int 0 (nines 4301) = Returned (decimal_value 0 (nines 4301)).
Proof. repeat split; by vm_compute. Qed.

Lemma usage_unique_keys (item : loc) : unique_keys (usage_heap item).
Proof.
  unfold unique_keys. destruct item as [|[|item]]; simpl; by compute_done.
Qed.

Lemma usage_digits_are_decimal (item : loc) :
  digits_are_decimal 4300 (usage_heap item).
Proof.
  intros key s Hin Hdigit. destruct item as [|[|item]]; simpl in Hin;
    repeat (destruct Hin as [Heq|Hin];
            [inversion Heq; subst; (reflexivity || discriminate Hdigit)|]);
    contradiction.
Qed.

Lemma usage_ready (item : loc) : ready usage_config usage_state item.
Proof.
  intros _. split; [apply usage_unique_keys | apply usage_digits_are_decimal].
Qed.

Lemma process_data_result_witness :
  [0; 1]%nat =
    List.filter (fun item => is_valid usage_config (heap usage_state item))
      usage_batch
  /\ (length [0; 1]%nat <= length usage_batch)%nat
  /\ forall item, In item [0; 1]%nat ->
       In item usage_batch
       /\ has_required_fields usage_config (heap usage_processed item).
Proof.
  apply (process_data_result usage_config usage_batch [0; 1]%nat usage_state
           usage_processed).
  reflexivity.
Defined.

Lemma process_data_frame_witness :
  (forall l, ~ (In l usage_batch
                /\ has_required_fields usage_config (heap usage_state l)) ->
     heap usage_processed l = heap usage_state l)
  /\ keeps_fields usage_state usage_processed
  /\ time_src usage_processed = time_src usage_state.
Proof.
  apply (process_data_frame usage_config usage_batch usage_state usage_processed
           (Returned [0; 1]%nat)).
  reflexivity.
Defined.

Lemma process_data_without_requirements_witness :
  fst (process_data (require []) usage_batch usage_state) = Returned usage_batch.
Proof.
  rewrite <- (process_data_without_requirements (require []) usage_batch
                [0; 1; 2]%nat usage_state
                (snd (process_data (require []) usage_batch usage_state))
                (or_intror eq_refl) eq_refl).
  reflexivity.
Defined.

Lemma long_record_undecodable : has_undecodable_digits 4300 long_record.
Proof.
  exists "serial", (nines 4301). split; [by left|]. split; by vm_compute.
Qed.

Lemma transform_item_raises_iff_witness :
  has_undecodable_digits (int_max_str_digits long_state) (heap long_state 0%nat)
  /\ exists e st', transform_item 0%nat long_state = (Raised e, st').
Proof.
  split; [exact long_record_undecodable|].
  apply (proj1 (transform_item_raises_iff 0%nat long_state)).
  exact long_record_undecodable.
Defined.


Lemma transform_item_result_witness :
  let st' := snd (transform_item 0%nat usage_state) in
  0%nat = 0%nat
  /\ heap st' 0%nat = transformed 1714564800 (usage_heap 0%nat)
  /\ (forall l, l <> 0%nat -> heap st' l = usage_heap l)
  /\ time_calls st' = 1%nat.
Proof.
  intros st'.
  apply (transform_item_result 0%nat 0%nat usage_state st'
           (usage_unique_keys 0%nat)).
  reflexivity.
Defined.

Lemma transform_item_twice_witness :
  let st' := snd (transform_item 0%nat usage_state) in
  transform_item 0%nat st' = (Returned 0%nat, st').
Proof.
  intros st'.
  apply (transform_item_twice 0%nat 0%nat usage_state st'
           (usage_unique_keys 0%nat)).
  reflexivity.
Defined.

Lemma process_data_twice_witness :
  process_data usage_config [0; 1]%nat usage_processed =
  (Returned [0; 1]%nat, usage_processed).
Proof.
  apply (process_data_twice usage_config usage_batch [0; 1]%nat usage_state
           usage_processed).
  - intros item _. apply usage_unique_keys.
  - reflexivity.
Defined.

Lemma load_config_outcomes_witness :
  load_config sample_json sample_files "config.json" = Returned (PDict []).
Proof.
  apply (proj1 (load_config_outcomes sample_json sample_files "config.json")
           "{}" (PDict [])); reflexivity.
Defined.

Lemma transform_item_unchanged_witness :
  let st' := snd (transform_item 0%nat usage_state) in
  transform_item 0%nat st' = (Returned 0%nat, st').
Proof.
  intros st'. apply (transform_item_unchanged 0%nat st'); [reflexivity|].
  intros key s Hin. vm_compute in Hin.
  repeat (destruct Hin as [Heq|Hin]; [by inversion Heq|]).
  contradiction.
Defined.

Lemma process_data_returns_valid_records_witness :
  exists st',
    process_data usage_config usage_batch usage_state =
      (Returned (List.filter
                   (fun item => is_valid usage_config (heap usage_state item))
                   usage_batch), st')
    /\ (forall item, In item usage_batch ->
          has_required_fields usage_config (heap usage_state item) ->
          exists t, heap st' item = transformed t (heap usage_state item))
    /\ (forall item,
          ~ (In item usage_batch
             /\ has_required_fields usage_config (heap usage_state item)) ->
          heap st' item = heap usage_state item).
Proof.
  apply (process_data_returns_valid_records usage_config usage_batch usage_state).
  intros item _. apply usage_ready.
Defined.

End SampleMore.
